(** * The chess agent of [agents/chess_agent.py]

    A shallow embedding of [ChessAgent]: the session store [self.boards],
    the turn [process_messages], the engine bridge [_get_stockfish_move],
    the image writer [_save_board_image] and [cleanup].

    - The chess library (python-chess) is the interface [RulesEngine]; the
      agent is written over any implementation of it.
    - A [chess.Board] is a mutable object: the store maps a context id to a
      reference, and the boards live in a heap, so that the aliasing between
      the local variable [board] and the entry [self.boards[context_id]] is
      the model's own.
    - What the operating system answers during one turn (the ids drawn, the
      engine process, the image conversion, the file system) is an [Env].
    - Waiting on the engine process is counted in ticks: at each tick its
      output and its error stream each yield some bytes or their end, and
      the process has exited or not; a call that has not returned after
      [fuel] ticks is [Pending].
    - An exception is an [exn]; only subclasses of [Exception] occur
      (cancellation of the task is left out).  The [print] calls of the
      handlers write to the console only and are left out, and so the
      messages of the exceptions the handlers catch are abridged.
    - [board.push] is called on a move [parse_san] has returned, or on one
      for which [board.san], which pushes and pops the move itself, has just
      returned: it is taken not to raise. *)

From Stdlib Require Import Ascii String NArith.
From stdpp Require Import gmap strings list.

Local Open Scope string_scope.
Local Open Scope list_scope.

(** ** Python strings

    A [str] is kept as the string of its UTF-8 bytes; [str.encode()] is then
    the identity and [bytes.decode()] the check that the bytes are
    well-formed UTF-8.  The characters of a [str] are the code points its
    bytes encode: [strip] and [split] work on them, with the white space of
    [str.isspace]. *)

Definition nl : string := String (ascii_of_nat 10) "".

Definition in_range (lo hi : N) (c : ascii) : bool :=
  let n := N_of_ascii c in ((lo <=? n) && (n <=? hi))%N.

Definition cont (c : ascii) : bool := in_range 128 191 c.

(** Well-formed UTF-8 (the strict decoder: no overlong form, no surrogate,
    nothing above U+10FFFF). *)
Fixpoint utf8_ok (s : string) : bool :=
  match s with
  | EmptyString => true
  | String c0 r =>
      if in_range 0 127 c0 then utf8_ok r
      else match r with
      | EmptyString => false
      | String c1 r1 =>
          if in_range 194 223 c0 then cont c1 && utf8_ok r1
          else match r1 with
          | EmptyString => false
          | String c2 r2 =>
              if in_range 224 239 c0 then
                (if in_range 224 224 c0 then in_range 160 191 c1
                 else if in_range 237 237 c0 then in_range 128 159 c1
                 else cont c1)
                && cont c2 && utf8_ok r2
              else match r2 with
              | EmptyString => false
              | String c3 r3 =>
                  in_range 240 244 c0
                  && (if in_range 240 240 c0 then in_range 144 191 c1
                      else if in_range 244 244 c0 then in_range 128 143 c1
                      else cont c1)
                  && cont c2 && cont c3 && utf8_ok r3
              end
          end
      end
  end.

(** [b.decode()]: [None] stands for [UnicodeDecodeError]. *)
Definition decode (bytes : string) : option string :=
  if utf8_ok bytes then Some bytes else None.

(** [chr(n)]: the character of code point [n], in its UTF-8 bytes. *)
Definition chr (n : N) : string :=
  let byte (k : N) := ascii_of_N k in
  if (n <? 128)%N then String (byte n) EmptyString
  else if (n <? 2048)%N then
    String (byte (192 + n / 64)%N)
      (String (byte (128 + n mod 64)%N) EmptyString)
  else if (n <? 65536)%N then
    String (byte (224 + n / 4096)%N)
      (String (byte (128 + (n / 64) mod 64)%N)
         (String (byte (128 + n mod 64)%N) EmptyString))
  else
    String (byte (240 + n / 262144)%N)
      (String (byte (128 + (n / 4096) mod 64)%N)
         (String (byte (128 + (n / 64) mod 64)%N)
            (String (byte (128 + n mod 64)%N) EmptyString))).

(** [ord(c)]: the code point of a character, [None] for bytes that are not
    the well-formed UTF-8 of one character. *)
Definition ord (c : string) : option N :=
  let v (a : ascii) (base : N) := (N_of_ascii a - base)%N in
  if utf8_ok c then
    match c with
    | String a EmptyString => Some (N_of_ascii a)
    | String a (String b EmptyString) => Some (v a 192 * 64 + v b 128)%N
    | String a (String b (String d EmptyString)) =>
        Some (v a 224 * 4096 + v b 128 * 64 + v d 128)%N
    | String a (String b (String d (String e EmptyString))) =>
        Some (v a 240 * 262144 + v b 128 * 4096 + v d 128 * 64 + v e 128)%N
    | _ => None
    end
  else None.

(** The characters of a [str], each in its UTF-8 bytes: the lead byte tells
    how many bytes the character takes. *)
Fixpoint chars (s : string) : list string :=
  match s with
  | EmptyString => []
  | String c0 r =>
      if in_range 194 223 c0 then
        match r with
        | String c1 r1 => String c0 (String c1 EmptyString) :: chars r1
        | _ => [s]
        end
      else if in_range 224 239 c0 then
        match r with
        | String c1 (String c2 r2) =>
            String c0 (String c1 (String c2 EmptyString)) :: chars r2
        | _ => [s]
        end
      else if in_range 240 244 c0 then
        match r with
        | String c1 (String c2 (String c3 r3)) =>
            String c0 (String c1 (String c2 (String c3 EmptyString)))
            :: chars r3
        | _ => [s]
        end
      else String c0 EmptyString :: chars r
  end.

(** The string of a list of characters. *)
Definition unchars (cs : list string) : string :=
  foldr String.append EmptyString cs.

(** White space by code point, as [str.isspace], [str.strip()] and
    [str.split()] have it: TAB, LF, VT, FF, CR, the separators FS, GS, RS
    and US, the space, NEL (U+0085), the no-break space (U+00A0), the ogham
    space mark (U+1680), the spaces U+2000 to U+200A, the line and paragraph
    separators (U+2028, U+2029), the narrow no-break space (U+202F), the
    medium mathematical space (U+205F) and the ideographic space (U+3000). *)
Definition isspace_code (n : N) : bool :=
  ((9 <=? n) && (n <=? 13) || (28 <=? n) && (n <=? 32)
   || (n =? 0x85) || (n =? 0xA0) || (n =? 0x1680)
   || (0x2000 <=? n) && (n <=? 0x200A)
   || (n =? 0x2028) || (n =? 0x2029) || (n =? 0x202F) || (n =? 0x205F)
   || (n =? 0x3000))%N.

(** [c.isspace()] for one character. *)
Definition py_isspace (c : string) : bool :=
  match ord c with
  | Some n => isspace_code n
  | None => false
  end.

Fixpoint drop_spaces (cs : list string) : list string :=
  match cs with
  | [] => []
  | c :: r => if py_isspace c then drop_spaces r else cs
  end.

(** [s.strip()]: the white space at both ends is removed. *)
Definition strip (s : string) : string :=
  unchars (rev (drop_spaces (rev (drop_spaces (chars s))))).

(** [s.split("\n")]: the pieces between line feeds, empty ones included. *)
Fixpoint split_lines (s : string) : list string :=
  match s with
  | EmptyString => [EmptyString]
  | String c r =>
      if Ascii.eqb c (ascii_of_nat 10) then EmptyString :: split_lines r
      else match split_lines r with
           | l :: ls => String c l :: ls
           | [] => [String c EmptyString]
           end
  end.

(** The maximal runs of characters that are not white space. *)
Fixpoint words (cs : list string) : list string :=
  match cs with
  | [] => []
  | c :: r =>
      if py_isspace c then words r
      else match r with
           | [] => [c]
           | d :: _ =>
               if py_isspace d then c :: words r
               else match words r with
                    | w :: ws => (c +:+ w) :: ws
                    | [] => [c]
                    end
           end
  end.

(** [s.split()] *)
Definition split (s : string) : list string := words (chars s).

(** [s.startswith(p)] *)
Fixpoint startswith (p s : string) : bool :=
  match p, s with
  | EmptyString, _ => true
  | String a p', String b s' => Ascii.eqb a b && startswith p' s'
  | String _ _, EmptyString => false
  end.

(** [os.path.join(a, b)] on POSIX. *)
Definition endswith_slash (s : string) : bool :=
  match String.rev s with
  | String c _ => Ascii.eqb c "/"
  | EmptyString => false
  end.

Definition path_join (a b : string) : string :=
  if startswith "/" b then b
  else if (String.length a =? 0)%nat || endswith_slash a then a +:+ b
  else a +:+ "/" +:+ b.

(** [x or d] for an [Optional[str]]: [None] and the empty string are falsy. *)
Definition py_or (x : option string) (d : string) : string :=
  match x with
  | Some (String c r) => String c r
  | _ => d
  end.

(** ** Messages and results *)

(** Modelled from the spec: the part of a message, declared in
    [models/a2a.py], which is not among the sources.  The fields are those
    the agent reads and writes; [text] and [file_url] are optional, as the
    agent builds a text part without [file_url] and a file part without
    [text]. *)
Record MessagePart := {
  part_kind : string;
  part_text : option string;
  part_file_url : option string }.

(** Modelled from the spec: the message record of [models/a2a.py], with the
    fields the agent sets. *)
Record A2AMessage := {
  msg_role : string;
  msg_parts : list MessagePart;
  msg_taskId : option string }.

(** Modelled from the spec: the artifact record of [models/a2a.py]. *)
Record Artifact := {
  art_name : string;
  art_parts : list MessagePart }.

(** Modelled from the spec: the status record of [models/a2a.py]; the state
    is one of ["input-required"] and ["completed"]. *)
Record TaskStatus := {
  status_state : string;
  status_message : A2AMessage }.

(** Modelled from the spec: the result record of [models/a2a.py] (the
    spec's TurnResult). *)
Record TaskResult := {
  res_id : string;
  res_contextId : string;
  res_status : TaskStatus;
  res_artifacts : list Artifact;
  res_history : list A2AMessage }.

Definition text_part (t : string) : MessagePart :=
  {| part_kind := "text"; part_text := Some t; part_file_url := None |}.

Definition file_part (url : string) : MessagePart :=
  {| part_kind := "file"; part_text := None; part_file_url := Some url |}.

(** ** Exceptions and outcomes *)

Inductive exn_class :=
  | FileNotFoundError | ValueError | IndexError | AttributeError
  | AssertionError | UnicodeDecodeError | OSError.

Record exn := Exn { exn_cls : exn_class; exn_msg : string }.

(** The two failures [process_messages] raises itself (lines 47 and 61). *)
Definition InvalidInput : exn := Exn ValueError "No message provided".
Definition IllegalMove (move_text : string) : exn :=
  Exn ValueError ("Invalid move: " +:+ move_text).

(** What a call has come to: it returned, it raised, or it is still waiting
    on the engine process. *)
Inductive outcome (A : Type) :=
  | Ret (a : A)
  | Raise (e : exn)
  | Pending.
Arguments Ret {A} a.
Arguments Raise {A} e.
Arguments Pending {A}.

(** ** The rules engine (python-chess) *)

Class RulesEngine := {
  Board : Type;
  Move : Type;
  (** [chess.Board()] *)
  new_board : Board;
  (** [board.parse_san(text)]: the move the text stands for, a legal move
      or, for one of the texts [--], [Z0], [0000] and [@@@@], the null
      move; [None] when it raises *)
  parse_san : Board -> string -> option Move;
  (** [board.push(move)]: the position after the move *)
  push : Board -> Move -> Board;
  (** [board.san(move)], or the exception it raises *)
  san : Board -> Move -> exn + string;
  (** [list(board.legal_moves)] *)
  legal_moves : Board -> list Move;
  (** [board.fen()] *)
  fen : Board -> string;
  (** [chess.Move.from_uci(text)], [None] when it raises *)
  from_uci : string -> option Move;
  (** [bool(move)]: false for the null move only *)
  move_bool : Move -> bool;
  is_checkmate : Board -> bool;
  is_check : Board -> bool;
  is_game_over : Board -> bool;
  (** [chess.svg.board(board)] *)
  svg_board : Board -> string }.

(** ** The environment of one turn *)

(** What a pipe of the engine yields at one tick: some bytes, perhaps none,
    or its end. *)
Inductive chunk := Data (bytes : string) | Eof.

(** A running engine process, given what it is sent on its input: what its
    output and its error stream yield tick after tick, and the tick at
    which it exits ([None] if it never does).  A process may close its
    streams and run on, or exit while a pipe stays open. *)
Record process := {
  proc_stdout : string -> nat -> chunk;
  proc_stderr : string -> nat -> chunk;
  proc_exit : string -> option nat }.

Record Env := {
  (** the values of the two [str(uuid4())] calls, when they are made *)
  uuid4_context : string;
  uuid4_task : string;
  (** [asyncio.create_subprocess_exec(path, ...)] *)
  create_subprocess_exec : string -> exn + process;
  (** [cairosvg.svg2png(bytestring=...)] *)
  svg2png : string -> exn + string;
  (** [tempfile.gettempdir()] *)
  gettempdir : exn + string;
  (** [open(path, "wb")], which creates the file or empties it: the
      exception, if one is raised *)
  file_open : string -> option exn;
  (** [f.write(data)] and the closing of the file at the end of the [with]
      block: when one of them raises, the exception and the bytes that have
      reached the file *)
  file_write : string -> string -> exn * string + unit }.

(** What a turn does to the outside: a program is started; bytes are
    written to the engine's input; that input is closed; a file is opened
    for writing, which creates it or empties it; bytes reach an opened
    file. *)
Inductive effect :=
  | Exec (path : string)
  | StdinWrite (bytes : string)
  | StdinClose
  | FileOpen (path : string)
  | FileWrite (path : string) (bytes : string).

(** ** The agent's state and the monad of its methods *)

Section ChessAgent.
Context {RE : RulesEngine}.

(** [self.engine_path] and [self.boards], the heap the board objects live
    in, and the effects performed so far. *)
Record agent := {
  engine_path : string;
  boards : gmap string nat;
  heap : list Board;
  effects : list effect }.

Definition M (A : Type) : Type := agent -> outcome A * agent.

Definition ret {A} (a : A) : M A := fun s => (Ret a, s).

Definition raise {A} (e : exn) : M A := fun s => (Raise e, s).

Definition bind {A B} (c : M A) (k : A -> M B) : M B :=
  fun s =>
    match c s with
    | (Ret a, s') => k a s'
    | (Raise e, s') => (Raise e, s')
    | (Pending, s') => (Pending, s')
    end.

(** A computation that touches no state: its value, or what it raises. *)
Definition lift {A} (r : exn + A) : M A :=
  match r with
  | inl e => raise e
  | inr a => ret a
  end.

(** [try: body except Exception as e: handler] *)
Definition try_except {A} (body : M A) (handler : exn -> M A) : M A :=
  fun s =>
    match body s with
    | (Raise e, s') => handler e s'
    | r => r
    end.

Notation "x <- c ;; k" := (bind c (fun x => k))
  (at level 100, c at next level, right associativity).
Notation "c ;; k" := (bind c (fun _ => k))
  (at level 100, right associativity).

Definition get_engine_path : M string := fun s => (Ret (engine_path s), s).

Definition emit (e : effect) : M unit :=
  fun s =>
    (Ret tt, {| engine_path := engine_path s; boards := boards s;
                heap := heap s; effects := (effects s ++ [e])%list |}).

(** [chess.Board()]: a new object, holding the initial position. *)
Definition Board_new : M nat :=
  fun s =>
    (Ret (length (heap s)),
     {| engine_path := engine_path s; boards := boards s;
        heap := (heap s ++ [new_board])%list; effects := effects s |}).

(** The position a board object holds now.  A reference of a running agent
    always points into the heap (see [wf]). *)
Definition deref (board : nat) : M Board :=
  fun s => (Ret (default new_board (heap s !! board)), s).

(** [board.push(move)]: the object is updated in place. *)
Definition Board_push (board : nat) (move : Move) : M unit :=
  fun s =>
    (Ret tt,
     {| engine_path := engine_path s; boards := boards s;
        heap := alter (fun b => push b move) board (heap s);
        effects := effects s |}).

(** [self.boards.get(context_id, d)] *)
Definition boards_get (context_id : string) (d : nat) : M nat :=
  fun s => (Ret (default d (boards s !! context_id)), s).

(** [self.boards[context_id] = board] *)
Definition boards_set (context_id : string) (board : nat) : M unit :=
  fun s =>
    (Ret tt,
     {| engine_path := engine_path s;
        boards := <[context_id := board]> (boards s);
        heap := heap s; effects := effects s |}).

(** ** [_get_stockfish_move] (lines 120-153) *)

(** [stream.read()]: reading a pipe until its end, for [fuel] ticks at
    most. *)
Fixpoint read_to_eof (out : nat -> chunk) (k fuel : nat) : option string :=
  match fuel with
  | O => None
  | S fuel' =>
      match out k with
      | Eof => Some EmptyString
      | Data d =>
          match read_to_eof out (S k) fuel' with
          | Some rest => Some (d +:+ rest)
          | None => None
          end
      end
  end.

(** [process.wait()]: whether the process has exited within [fuel] ticks. *)
Definition exited_within (fuel : nat) (exit : option nat) : bool :=
  match exit with
  | Some t => (t <? fuel)%nat
  | None => false
  end.

(** What [process.communicate(input)] returns within [fuel] ticks: it
    gathers the output and the error stream, each read to its end, and then
    waits for the process to exit. *)
Definition communicated (fuel : nat) (p : process) (input : string)
  : option (string * string) :=
  match read_to_eof (proc_stdout p input) 0 fuel,
        read_to_eof (proc_stderr p input) 0 fuel with
  | Some stdout, Some stderr =>
      if exited_within fuel (proc_exit p input) then Some (stdout, stderr)
      else None
  | _, _ => None
  end.

(** [process.communicate(input)]: the input, a few lines, is written and the
    input pipe closed; the call returns the two streams once both have
    ended and the process has exited. *)
Definition communicate (fuel : nat) (p : process) (input : string)
  : M (string * string) :=
  emit (StdinWrite input) ;;
  emit StdinClose ;;
  match communicated fuel p input with
  | Some streams => ret streams
  | None => fun s => (Pending, s)
  end.

(** Lines 130-135. *)
Definition commands (b : Board) : list string :=
  [ "uci" +:+ nl;
    "isready" +:+ nl;
    "position fen " +:+ fen b +:+ nl;
    "go movetime 1000" +:+ nl ].

(** ["".join(xs)] *)
Definition join (xs : list string) : string :=
  foldr String.append EmptyString xs.

(** Lines 140-145: the loop over the output's lines.  The first line that
    starts with [bestmove] decides: its second word is read as a move, and
    both [line.split()[1]] and [from_uci] may raise. *)
Fixpoint scan_bestmove (lines : list string) : exn + option Move :=
  match lines with
  | [] => inr None
  | line :: rest =>
      if startswith "bestmove" line then
        match split line !! 1%nat with
        | None => inl (Exn IndexError "list index out of range")
        | Some move_uci =>
            match from_uci move_uci with
            | None => inl (Exn ValueError "invalid uci")
            | Some move => inr (Some move)
            end
        end
      else scan_bestmove rest
  end.

(** Lines 148-149 and 152-153. *)
Definition first_legal_move (board : nat) : M (option Move) :=
  b <- deref board ;;
  ret (head (legal_moves b)).

Definition _get_stockfish_move (fuel : nat) (env : Env) (board : nat)
  : M (option Move) :=
  try_except
    (path <- get_engine_path ;;
     match create_subprocess_exec env path with
     | inl e => raise e
     | inr p =>
         emit (Exec path) ;;
         b <- deref board ;;
         streams <- communicate fuel p (join (commands b)) ;;
         let stdout := fst streams in
         match decode stdout with
         | None => raise (Exn UnicodeDecodeError "invalid utf-8")
         | Some output => lift (scan_bestmove (split_lines output))
         end
     end)
    (fun e =>
       match exn_cls e with
       | FileNotFoundError => first_legal_move board
       | _ => first_legal_move board
       end).

(** ** [_save_board_image] (lines 155-175) *)

Definition _save_board_image (env : Env) (svg_content context_id task_id : string)
  : M string :=
  try_except
    (match svg2png env svg_content with
     | inl e => raise e
     | inr png_data =>
         match gettempdir env with
         | inl e => raise e
         | inr tmp_dir =>
             let file_path :=
               path_join tmp_dir (context_id +:+ "-" +:+ task_id +:+ ".png") in
             match file_open env file_path with
             | Some e => raise e
             | None =>
                 emit (FileOpen file_path) ;;
                 match file_write env file_path png_data with
                 | inl (e, written) =>
                     emit (FileWrite file_path written) ;;
                     raise e
                 | inr _ =>
                     emit (FileWrite file_path png_data) ;;
                     ret ("file://" +:+ file_path)
                 end
             end
         end
     end)
    (fun _ => ret EmptyString).

(** ** [process_messages] (lines 28-118) *)

(** Lines 50-54: the text of the first part of kind ["text"], stripped;
    [None.strip()] raises [AttributeError]. *)
Fixpoint extract_move_text (parts : list MessagePart) : exn + string :=
  match parts with
  | [] => inr EmptyString
  | part :: rest =>
      if String.eqb (part_kind part) "text" then
        match part_text part with
        | Some t => inr (strip t)
        | None =>
            inl (Exn AttributeError
                   "'NoneType' object has no attribute 'strip'")
        end
      else extract_move_text rest
  end.

Definition process_messages (fuel : nat) (env : Env)
    (messages : list A2AMessage) (context_id task_id : option string)
  : M TaskResult :=
  let context_id := py_or context_id (uuid4_context env) in
  let task_id := py_or task_id (uuid4_task env) in
  fresh <- Board_new ;;
  board <- boards_get context_id fresh ;;
  match last messages with
  | None => raise InvalidInput
  | Some user_message =>
      move_text <- lift (extract_move_text (msg_parts user_message)) ;;
      b <- deref board ;;
      match parse_san b move_text with
      | None => raise (IllegalMove move_text)
      | Some move =>
          Board_push board move ;;
          boards_set context_id board ;;
          ai_move <- _get_stockfish_move fuel env board ;;
          ai_move_san <-
            match ai_move with
            | Some m =>
                if move_bool m then
                  b <- deref board ;;
                  match san b m with
                  | inl e => raise e
                  | inr text => Board_push board m ;; ret text
                  end
                else ret "No legal moves available"
            | None => ret "No legal moves available"
            end ;;
          b <- deref board ;;
          let board_svg := svg_board b in
          board_url <- _save_board_image env board_svg context_id task_id ;;
          let response_text :=
            "I played " +:+ ai_move_san +:+
            (if is_checkmate b then " - Checkmate!"
             else if is_check b then " - Check!"
             else EmptyString) in
          let response_message :=
            {| msg_role := "agent";
               msg_parts := [text_part response_text];
               msg_taskId := Some task_id |} in
          let artifacts :=
            [ {| art_name := "move"; art_parts := [text_part ai_move_san] |};
              {| art_name := "board"; art_parts := [file_part board_url] |} ] in
          let history := (messages ++ [response_message])%list in
          let state :=
            if negb (is_game_over b) then "input-required" else "completed" in
          ret {| res_id := task_id;
                 res_contextId := context_id;
                 res_status :=
                   {| status_state := state;
                      status_message := response_message |};
                 res_artifacts := artifacts;
                 res_history := history |}
      end
  end.

(** [cleanup] (lines 177-179): [self.boards.clear()] *)
Definition cleanup : M unit :=
  fun s =>
    (Ret tt,
     {| engine_path := engine_path s; boards := ∅;
        heap := heap s; effects := effects s |}).

(** [ChessAgent(engine_path)] (lines 20-26) *)
Definition init (path : string) : agent :=
  {| engine_path := path; boards := ∅; heap := []; effects := [] |}.

(** ** Reading the store *)

(** The position stored for a context: the board object its entry refers to. *)
Definition stored_position (s : agent) (context_id : string) : option Board :=
  match boards s !! context_id with
  | Some board => heap s !! board
  | None => None
  end.

(** The position line 42 hands to the turn: the stored one, or the initial
    position of a new [chess.Board()]. *)
Definition current_board (s : agent) (context_id : string) : Board :=
  default new_board (stored_position s context_id).

(** Every entry of the store refers to a board of the heap, and no two
    entries refer to the same board. *)
Definition wf (s : agent) : Prop :=
  (forall c board, boards s !! c = Some board -> board < length (heap s))
  /\ (forall c1 c2 board,
        boards s !! c1 = Some board -> boards s !! c2 = Some board -> c1 = c2).

(** ** The turn as a function of the position

    What [process_messages] computes, with the board passed as a value; the
    lemma [process_messages_turn] relates the two. *)

(** The engine bridge's answer for a position. *)
Definition answer (fuel : nat) (env : Env) (path : string) (b : Board)
  : outcome (option Move) :=
  match create_subprocess_exec env path with
  | inl _ => Ret (head (legal_moves b))
  | inr p =>
      match communicated fuel p (join (commands b)) with
      | None => Pending
      | Some (stdout, _) =>
          match decode stdout with
          | None => Ret (head (legal_moves b))
          | Some output =>
              match scan_bestmove (split_lines output) with
              | inl _ => Ret (head (legal_moves b))
              | inr r => Ret r
              end
          end
      end
  end.

(** Lines 68-72: the position and the notation after the engine's answer. *)
Definition counter_move (b : Board) (ai_move : option Move)
  : exn + (Board * string) :=
  match ai_move with
  | Some m =>
      if move_bool m then
        match san b m with
        | inl e => inl e
        | inr text => inr (push b m, text)
        end
      else inr (b, "No legal moves available")
  | None => inr (b, "No legal moves available")
  end.

(** The reference [_save_board_image] returns. *)
Definition image_url (env : Env) (svg_content context_id task_id : string)
  : string :=
  match svg2png env svg_content with
  | inl _ => EmptyString
  | inr png_data =>
      match gettempdir env with
      | inl _ => EmptyString
      | inr tmp_dir =>
          let file_path :=
            path_join tmp_dir (context_id +:+ "-" +:+ task_id +:+ ".png") in
          match file_open env file_path, file_write env file_path png_data with
          | None, inr _ => "file://" +:+ file_path
          | _, _ => EmptyString
          end
      end
  end.

(** Lines 78-118: the result assembled for a final position. *)
Definition response_message (task_id ai_move_san : string) (b : Board)
  : A2AMessage :=
  {| msg_role := "agent";
     msg_parts :=
       [text_part
          ("I played " +:+ ai_move_san +:+
           (if is_checkmate b then " - Checkmate!"
            else if is_check b then " - Check!"
            else EmptyString))];
     msg_taskId := Some task_id |}.

Definition task_result (messages : list A2AMessage)
    (context_id task_id ai_move_san board_url : string) (b : Board)
  : TaskResult :=
  {| res_id := task_id;
     res_contextId := context_id;
     res_status :=
       {| status_state :=
            if negb (is_game_over b) then "input-required" else "completed";
          status_message := response_message task_id ai_move_san b |};
     res_artifacts :=
       [ {| art_name := "move"; art_parts := [text_part ai_move_san] |};
         {| art_name := "board"; art_parts := [file_part board_url] |} ];
     res_history :=
       (messages ++ [response_message task_id ai_move_san b])%list |}.

(** The human's move, read off the messages and parsed in a position. *)
Definition human_move (messages : list A2AMessage) (b : Board) : exn + Move :=
  match last messages with
  | None => inl InvalidInput
  | Some user_message =>
      match extract_move_text (msg_parts user_message) with
      | inl e => inl e
      | inr move_text =>
          match parse_san b move_text with
          | None => inl (IllegalMove move_text)
          | Some move => inr move
          end
      end
  end.

(** The outcome of a turn played from position [b]. *)
Definition turn (fuel : nat) (env : Env) (path : string)
    (messages : list A2AMessage) (context_id task_id : string) (b : Board)
  : outcome TaskResult :=
  match human_move messages b with
  | inl e => Raise e
  | inr move =>
      match answer fuel env path (push b move) with
      | Pending => Pending
      | Raise e => Raise e
      | Ret ai_move =>
          match counter_move (push b move) ai_move with
          | inl e => Raise e
          | inr (b', ai_move_san) =>
              Ret (task_result messages context_id task_id ai_move_san
                     (image_url env (svg_board b') context_id task_id) b')
          end
      end
  end.

(** The position a turn played from [b] leaves stored, if it stores one. *)
Definition position_after (fuel : nat) (env : Env) (path : string)
    (messages : list A2AMessage) (b : Board) : option Board :=
  match human_move messages b with
  | inl _ => None
  | inr move =>
      match answer fuel env path (push b move) with
      | Ret ai_move =>
          match counter_move (push b move) ai_move with
          | inr (b', _) => Some b'
          | inl _ => Some (push b move)
          end
      | _ => Some (push b move)
      end
  end.

(** Two states that differ in the recorded effects only. *)
Definition same_store (s s' : agent) : Prop :=
  engine_path s' = engine_path s /\ boards s' = boards s /\ heap s' = heap s.

(** The image of a board cannot be made or stored: the conversion raises,
    there is no temporary directory, the file cannot be opened, or the
    write fails. *)
Definition image_fails (env : Env) (svg_content context_id task_id : string)
  : Prop :=
  match svg2png env svg_content with
  | inl _ => True
  | inr png_data =>
      match gettempdir env with
      | inl _ => True
      | inr tmp_dir =>
          let file_path :=
            path_join tmp_dir (context_id +:+ "-" +:+ task_id +:+ ".png") in
          file_open env file_path <> None
          \/ exists failure, file_write env file_path png_data = inl failure
      end
  end.

(** Two environments with the same ids and the same engine. *)
Definition same_engine (env env' : Env) : Prop :=
  uuid4_context env = uuid4_context env'
  /\ uuid4_task env = uuid4_task env'
  /\ forall path, create_subprocess_exec env path = create_subprocess_exec env' path.

End ChessAgent.

(** ** A small rules engine to run the agent on

    [Mini] is an excerpt of the game tree of chess: the opening position,
    the position after 1. e4, the line 1. e4 g5 2. Nc3 f5 3. Qh5 mate, the
    position reached when the pawn move a7-a6 is pushed for the mated side,
    and the positions after White passes with the null move and Black
    answers Nh6; each with the moves listed for it.  A position is the list
    of the moves played, a move its UCI text.  Positions outside the excerpt
    have no listed move, and the notation of a move is looked up by its
    UCI text alone.  It serves the examples; every theorem about the agent
    is proved for an arbitrary [RulesEngine]. *)

Module Mini.

(** The SAN of the excerpt's moves, without the check suffix. *)
Definition names : list (string * string) :=
  [ ("g1h3", "Nh3"); ("g1f3", "Nf3"); ("b1c3", "Nc3"); ("b1a3", "Na3");
    ("h2h3", "h3"); ("g2g3", "g3"); ("f2f3", "f3"); ("e2e3", "e3");
    ("d2d3", "d3"); ("c2c3", "c3"); ("b2b3", "b3"); ("a2a3", "a3");
    ("h2h4", "h4"); ("g2g4", "g4"); ("f2f4", "f4"); ("e2e4", "e4");
    ("d2d4", "d4"); ("c2c4", "c4"); ("b2b4", "b4"); ("a2a4", "a4");
    ("g8h6", "Nh6"); ("g8f6", "Nf6"); ("b8c6", "Nc6"); ("b8a6", "Na6");
    ("h7h6", "h6"); ("g7g6", "g6"); ("f7f6", "f6"); ("e7e6", "e6");
    ("d7d6", "d6"); ("c7c6", "c6"); ("b7b6", "b6"); ("a7a6", "a6");
    ("h7h5", "h5"); ("g7g5", "g5"); ("f7f5", "f5"); ("e7e5", "e5");
    ("d7d5", "d5"); ("c7c5", "c5"); ("b7b5", "b5"); ("a7a5", "a5");
    ("d1h5", "Qh5") ].

Definition white_first : list string :=
  [ "g1h3"; "g1f3"; "b1c3"; "b1a3"; "h2h3"; "g2g3"; "f2f3"; "e2e3"; "d2d3";
    "c2c3"; "b2b3"; "a2a3"; "h2h4"; "g2g4"; "f2f4"; "e2e4"; "d2d4"; "c2c4";
    "b2b4"; "a2a4" ].

Definition black_first : list string :=
  [ "g8h6"; "g8f6"; "b8c6"; "b8a6"; "h7h6"; "g7g6"; "f7f6"; "e7e6"; "d7d6";
    "c7c6"; "b7b6"; "a7a6"; "h7h5"; "g7g5"; "f7f5"; "e7e5"; "d7d5"; "c7c5";
    "b7b5"; "a7a5" ].

Definition mate : list string := ["e2e4"; "g7g5"; "b1c3"; "f7f5"; "d1h5"].

(** The excerpt: position, FEN, listed moves. *)
Definition table : list (list string * (string * list string)) :=
  [ ([],
     ("rnbqkbnr/pppppppp/8/8/8/8/PPPPPPPP/RNBQKBNR w KQkq - 0 1",
      white_first));
    (["e2e4"],
     ("rnbqkbnr/pppppppp/8/8/4P3/8/PPPP1PPP/RNBQKBNR b KQkq - 0 1",
      black_first));
    (["e2e4"; "g7g5"],
     ("rnbqkbnr/pppppp1p/8/6p1/4P3/8/PPPP1PPP/RNBQKBNR w KQkq - 0 2",
      ["g1f3"; "b1c3"; "d2d4"; "d1h5"]));
    (["e2e4"; "g7g5"; "b1c3"],
     ("rnbqkbnr/pppppp1p/8/6p1/4P3/2N5/PPPP1PPP/R1BQKBNR b KQkq - 1 2",
      ["g8f6"; "b8c6"; "f7f6"; "f7f5"]));
    (["e2e4"; "g7g5"; "b1c3"; "f7f5"],
     ("rnbqkbnr/ppppp2p/8/5pp1/4P3/2N5/PPPP1PPP/R1BQKBNR w KQkq - 0 3",
      ["g1f3"; "d2d4"; "d1h5"]));
    (mate,
     ("rnbqkbnr/ppppp2p/8/5ppQ/4P3/2N5/PPPP1PPP/R1B1KBNR b KQkq - 1 3",
      []));
    ((mate ++ ["a7a6"])%list,
     ("rnbqkbnr/1pppp2p/p7/5ppQ/4P3/2N5/PPPP1PPP/R1B1KBNR w KQkq - 0 4",
      ["g1f3"; "d2d4"]));
    (["0000"],
     ("rnbqkbnr/pppppppp/8/8/8/8/PPPPPPPP/RNBQKBNR b KQkq - 1 1",
      black_first));
    (["0000"; "g8h6"],
     ("rnbqkb1r/pppppppp/7n/8/8/8/PPPPPPPP/RNBQKBNR w KQkq - 2 2",
      white_first)) ].

Fixpoint assoc {A B} (eqb : A -> A -> bool) (k : A) (l : list (A * B)) : option B :=
  match l with
  | [] => None
  | (k', v) :: l' => if eqb k k' then Some v else assoc eqb k l'
  end.

Fixpoint stack_eqb (a b : list string) : bool :=
  match a, b with
  | [], [] => true
  | x :: a', y :: b' => String.eqb x y && stack_eqb a' b'
  | _, _ => false
  end.

Definition entry (b : list string) : option (string * list string) :=
  assoc stack_eqb b table.

Definition legal_moves (b : list string) : list string :=
  match entry b with Some (_, ms) => ms | None => [] end.

Definition fen (b : list string) : string :=
  match entry b with Some (f, _) => f | None => EmptyString end.

Definition push (b : list string) (m : string) : list string := (b ++ [m])%list.

Definition is_checkmate (b : list string) : bool := stack_eqb b mate.

Definition is_check (b : list string) : bool := is_checkmate b.

Definition is_game_over (b : list string) : bool :=
  match legal_moves b with [] => true | _ => false end.

(** The suffix of a move's SAN: it is read off the position the move leads to. *)
Definition suffix (b : list string) : string :=
  if is_checkmate b then "#" else if is_check b then "+" else EmptyString.

(** python-chess prints the move of the piece that stands on the move's
    square of departure, legal or not, asserts that there is one, and
    prints the null move as [--]. *)
Definition san (b : list string) (m : string) : exn + string :=
  if String.eqb m "0000" then inr "--"
  else
    match assoc String.eqb m names with
    | Some n => inr (n +:+ suffix (push b m))
    | None =>
        inl (Exn AssertionError
               "san() and lan() expect move to be legal or null")
    end.

(** A legal move whose SAN is the text, with or without its suffix. *)
Definition matches (b : list string) (text m : string) : bool :=
  match assoc String.eqb m names with
  | Some n =>
      String.eqb text n || String.eqb text (n +:+ "+")
      || String.eqb text (n +:+ "#")
  | None => false
  end.

(** The texts python-chess reads as the null move. *)
Definition null_move_texts : list string := ["--"; "Z0"; "0000"; "@@@@"].

Definition parse_san (b : list string) (text : string) : option string :=
  match List.find (matches b text) (legal_moves b) with
  | Some m => Some m
  | None =>
      if existsb (String.eqb text) null_move_texts then Some "0000" else None
  end.

Definition is_file (c : ascii) : bool := in_range 97 104 c.
Definition is_rank (c : ascii) : bool := in_range 49 56 c.

(** Four characters naming two different squares, or the null move. *)
Definition from_uci (text : string) : option string :=
  match text with
  | String f1 (String r1 (String f2 (String r2 EmptyString))) =>
      if String.eqb text "0000" then Some text
      else if is_file f1 && is_rank r1 && is_file f2 && is_rank r2
              && negb (Ascii.eqb f1 f2 && Ascii.eqb r1 r2)
      then Some text else None
  | _ => None
  end.

Definition move_bool (m : string) : bool := negb (String.eqb m "0000").

Definition svg_board (b : list string) : string :=
  "<svg>" +:+ fen b +:+ "</svg>".

Definition rules : RulesEngine :=
  Build_RulesEngine (list string) string [] parse_san push san legal_moves
    fen from_uci move_bool is_checkmate is_check is_game_over svg_board.

End Mini.


(** ** Concrete turns

    An agent over [Mini], engines of a few kinds, and environments to run
    the examples in. *)

Module Demo.

(** An engine that prints [out], closes its streams and exits. *)
Definition prints (out : string) : process :=
  {| proc_stdout := fun _ k => match k with O => Data out | S _ => Eof end;
     proc_stderr := fun _ _ => Eof;
     proc_exit := fun _ => Some 1 |}.

(** An engine that prints [out] and closes its streams as [prints] does,
    and exits at tick [t] only. *)
Definition lingers (t : nat) (out : string) : process :=
  {| proc_stdout := fun _ k => match k with O => Data out | S _ => Eof end;
     proc_stderr := fun _ _ => Eof;
     proc_exit := fun _ => Some t |}.

(** An engine that never closes its output and never exits. *)
Definition hung : process :=
  {| proc_stdout := fun _ _ => Data EmptyString;
     proc_stderr := fun _ _ => Eof;
     proc_exit := fun _ => None |}.

Definition missing : exn + process :=
  inl (Exn FileNotFoundError "No such file or directory").

(** An environment whose image conversion and file system work. *)
Definition env (engine : exn + process) (uuid : string) : Env :=
  {| uuid4_context := uuid;
     uuid4_task := "task-" +:+ uuid;
     create_subprocess_exec := fun _ => engine;
     svg2png := fun svg => inr ("PNG " +:+ svg);
     gettempdir := inr "/tmp";
     file_open := fun _ => None;
     file_write := fun _ _ => inr tt |}.

(** The same, with an image conversion that raises. *)
Definition env_no_image (engine : exn + process) (uuid : string) : Env :=
  {| uuid4_context := uuid;
     uuid4_task := "task-" +:+ uuid;
     create_subprocess_exec := fun _ => engine;
     svg2png := fun _ => inl (Exn OSError "no library called cairo was found");
     gettempdir := inr "/tmp";
     file_open := fun _ => None;
     file_write := fun _ _ => inr tt |}.

Definition human (text : string) : A2AMessage :=
  {| msg_role := "user"; msg_parts := [text_part text]; msg_taskId := None |}.

(** A message with an attachment and no text. *)
Definition attachment : A2AMessage :=
  {| msg_role := "user";
     msg_parts := [file_part "file:///tmp/photo.png"];
     msg_taskId := None |}.

Definition bestmove (uci : string) : string :=
  "uciok" +:+ nl +:+ "readyok" +:+ nl +:+ "bestmove " +:+ uci +:+ nl.

Definition new_agent : @agent Mini.rules := @init Mini.rules "/usr/games/stockfish".

Definition run (fuel : nat) (e : Env) (text : string) (context_id : option string)
    (s : @agent Mini.rules) : outcome TaskResult * @agent Mini.rules :=
  @process_messages Mini.rules fuel e [human text] context_id None s.

(** Inside the first turn of the game ["game"], at line 67: 1. e4 is played
    and stored, and the engine is about to be asked. *)
Definition after_e4 : @agent Mini.rules :=
  @Build_agent Mini.rules "/usr/games/stockfish" {["game" := 0%nat]}
    [["e2e4"]] [].

(** The game ["game"] after 1. e4 g5. *)
Definition after_e4_g5 : @agent Mini.rules :=
  snd (run 2 (env (inr (prints (bestmove "g7g5"))) "u1") "e4" (Some "game")
         new_agent).

(** The game ["game"] after 1. e4 g5 2. Nc3 f5: White mates with Qh5. *)
Definition before_mate : @agent Mini.rules :=
  snd (run 2 (env (inr (prints (bestmove "f7f5"))) "u2") "Nc3" (Some "game")
         after_e4_g5).

(** The game ["game"] after 3. Qh5 mate, played with no engine at hand. *)
Definition mated : @agent Mini.rules :=
  snd (run 0 (env missing "u3") "Qh5#" (Some "game") before_mate).

(** The result of the turn 1. e4 g5 for the context [c]. *)
Definition e4_g5_result (c uuid : string) : TaskResult :=
  @task_result Mini.rules [human "e4"] c ("task-" +:+ uuid) "g5"
    ("file:///tmp/" +:+ c +:+ "-task-" +:+ uuid +:+ ".png") ["e2e4"; "g7g5"].

(** The result of the turn 3. Qh5 mate. *)
Definition mate_result : TaskResult :=
  @task_result Mini.rules [human "Qh5#"] "game" "task-u3"
    "No legal moves available" "file:///tmp/game-task-u3.png" Mini.mate.

End Demo.

(** * Properties *)

(** ** The string functions and the small rules engine, on examples *)

Example strip_e4 : strip ("  e4 " +:+ nl) = "e4".
Proof. reflexivity. Qed.

Example split_lines_trailing :
  split_lines ("readyok" +:+ nl +:+ "bestmove e7e5 ponder g1f3" +:+ nl)
  = ["readyok"; "bestmove e7e5 ponder g1f3"; ""].
Proof. reflexivity. Qed.

Example split_bestmove :
  split "bestmove e7e5  ponder g1f3" = ["bestmove"; "e7e5"; "ponder"; "g1f3"].
Proof. reflexivity. Qed.

Example split_lines_empty : split_lines "" = [""].
Proof. reflexivity. Qed.

Example path_join_tmp : path_join "/tmp" "c-t.png" = "/tmp/c-t.png".
Proof. reflexivity. Qed.

Example decode_rejects_lone_continuation :
  decode (String (ascii_of_nat 128) "") = None.
Proof. reflexivity. Qed.

Example split_no_second_word : split "bestmove  " !! 1%nat = None.
Proof. reflexivity. Qed.

Example py_or_empty : py_or (Some EmptyString) "fresh" = "fresh".
Proof. reflexivity. Qed.

Example chr_no_break_space :
  chr 0xA0 = String (ascii_of_nat 194) (String (ascii_of_nat 160) EmptyString).
Proof. reflexivity. Qed.

Example strip_no_break_space : strip ("e4" +:+ chr 0xA0) = "e4".
Proof. reflexivity. Qed.

Example strip_ideographic_space : strip (chr 0x3000 +:+ "e9e9") = "e9e9".
Proof. reflexivity. Qed.

(** The zero width space is no white space. *)
Example strip_keeps_zero_width_space :
  strip ("e4" +:+ chr 0x200B) = "e4" +:+ chr 0x200B.
Proof. reflexivity. Qed.

Example split_no_break_space :
  split ("bestmove" +:+ chr 0xA0 +:+ "e7e5") = ["bestmove"; "e7e5"].
Proof. reflexivity. Qed.

Example split_second_word :
  split ("bestmove" +:+ chr 0xA0 +:+ "x e7e5") !! 1%nat = Some "x".
Proof. reflexivity. Qed.

Example scan_bestmove_no_break_space :
  scan_bestmove (RE := Mini.rules) ["bestmove" +:+ chr 0xA0 +:+ "e7e5"]
  = inr (Some "e7e5").
Proof. reflexivity. Qed.

Example scan_bestmove_second_word :
  scan_bestmove (RE := Mini.rules) ["bestmove" +:+ chr 0xA0 +:+ "x e7e5"]
  = inl (Exn ValueError "invalid uci").
Proof. reflexivity. Qed.

Example mini_null_move : Mini.parse_san ["e2e4"] "--" = Some "0000".
Proof. reflexivity. Qed.

Example mini_first_reply : head (Mini.legal_moves ["e2e4"]) = Some "g8h6".
Proof. reflexivity. Qed.

Example mini_mate : Mini.san ["e2e4"; "g7g5"; "b1c3"; "f7f5"] "d1h5" = inr "Qh5#".
Proof. reflexivity. Qed.

Section Properties.
Context {RE : RulesEngine}.

Lemma same_store_refl s : same_store s s.
Proof. by repeat split. Qed.

(** ** Waiting for the engine *)

Lemma read_to_eof_Some out : forall fuel k stdout,
  read_to_eof out k fuel = Some stdout ->
  exists n, n < fuel /\ out (k + n) = Eof.
Proof.
  induction fuel as [|fuel IH]; intros k stdout H; simpl in H; [done|].
  destruct (out k) as [d|] eqn:Hk.
  - destruct (read_to_eof out (S k) fuel) as [rest|] eqn:Hr; [|done].
    destruct (IH _ _ Hr) as (n & Hn & Heof).
    exists (S n). split; [lia|]. by replace (k + S n) with (S k + n) by lia.
  - exists 0. split; [lia|]. by rewrite Nat.add_0_r.
Qed.

Lemma read_to_eof_None out : forall fuel k,
  read_to_eof out k fuel = None ->
  forall n, n < fuel -> out (k + n) <> Eof.
Proof.
  induction fuel as [|fuel IH]; intros k H n Hn; [lia|].
  simpl in H. destruct (out k) as [d|] eqn:Hk; [|done].
  destruct (read_to_eof out (S k) fuel) as [rest|] eqn:Hr; [done|].
  destruct n as [|n].
  - rewrite Nat.add_0_r. by rewrite Hk.
  - replace (k + S n) with (S k + n) by lia. apply IH; [done|lia].
Qed.

(** Once the output has been read to its end, more patience changes nothing. *)
Lemma read_to_eof_mono out : forall fuel fuel' k stdout,
  read_to_eof out k fuel = Some stdout -> fuel <= fuel' ->
  read_to_eof out k fuel' = Some stdout.
Proof.
  induction fuel as [|fuel IH]; intros fuel' k stdout H Hle; [done|].
  destruct fuel' as [|fuel']; [lia|].
  simpl in *. destruct (out k) as [d|]; [|done].
  destruct (read_to_eof out (S k) fuel) as [rest|] eqn:Hr; [|done].
  rewrite (IH fuel' (S k) rest Hr); [done|lia].
Qed.

Lemma exited_within_spec fuel exit :
  exited_within fuel exit = false
  <-> forall t, exit = Some t -> fuel <= t.
Proof.
  unfold exited_within. destruct exit as [t|].
  - rewrite Nat.ltb_ge. split; [by intros H ? [= <-]|by intros H; apply H].
  - by split.
Qed.

(** The call is still waiting after [fuel] ticks exactly when one of the
    streams has not ended or the process has not exited within them. *)
Lemma communicated_None fuel p input :
  communicated fuel p input = None
  <-> (forall n, n < fuel -> proc_stdout p input n <> Eof)
      \/ (forall n, n < fuel -> proc_stderr p input n <> Eof)
      \/ (forall t, proc_exit p input = Some t -> fuel <= t).
Proof.
  unfold communicated.
  destruct (read_to_eof (proc_stdout p input) 0 fuel) as [stdout|] eqn:Hout.
  2:{ split; [|done]. intros _. left. intros n Hn.
      by apply (read_to_eof_None _ fuel 0 Hout n Hn). }
  destruct (read_to_eof (proc_stderr p input) 0 fuel) as [stderr|] eqn:Herr.
  2:{ split; [|done]. intros _. right. left. intros n Hn.
      by apply (read_to_eof_None _ fuel 0 Herr n Hn). }
  destruct (exited_within fuel (proc_exit p input)) eqn:Hexit.
  - split; [done|]. intros [Hno|[Hno|Hno]].
    + destruct (read_to_eof_Some _ _ _ _ Hout) as (n & Hn & Heof).
      by destruct (Hno n Hn).
    + destruct (read_to_eof_Some _ _ _ _ Herr) as (n & Hn & Heof).
      by destruct (Hno n Hn).
    + apply exited_within_spec in Hno. congruence.
  - split; [|done]. intros _. right. right. by apply exited_within_spec.
Qed.

(** Once the call has returned, more patience changes nothing. *)
Lemma communicated_mono fuel fuel' p input streams :
  communicated fuel p input = Some streams -> fuel <= fuel' ->
  communicated fuel' p input = Some streams.
Proof.
  unfold communicated. intros H Hle.
  destruct (read_to_eof (proc_stdout p input) 0 fuel) as [stdout|] eqn:Hout;
    [|done].
  destruct (read_to_eof (proc_stderr p input) 0 fuel) as [stderr|] eqn:Herr;
    [|done].
  rewrite (read_to_eof_mono _ _ _ _ _ Hout Hle),
    (read_to_eof_mono _ _ _ _ _ Herr Hle).
  destruct (proc_exit p input) as [t|]; simpl in *; [|done].
  destruct (t <? fuel)%nat eqn:Ht; [|done].
  apply Nat.ltb_lt in Ht.
  by replace (t <? fuel')%nat with true by (symmetry; apply Nat.ltb_lt; lia).
Qed.

(** ** The heap under line 42

    [board] below is the reference line 42 yields: the stored one, or the
    board [chess.Board()] has just made. *)

Lemma board_fresh_or_stored s cid :
  wf s ->
  let board := default (length (heap s)) (boards s !! cid) in
  (heap s ++ [new_board]) !! board = Some (current_board s cid)
  /\ board < length (heap s ++ [new_board]).
Proof.
  intros [Hval _]. unfold current_board, stored_position. simpl.
  rewrite length_app. simpl.
  destruct (boards s !! cid) as [l|] eqn:Hl; simpl.
  - pose proof (Hval _ _ Hl) as Hlt.
    destruct (lookup_lt_is_Some_2 _ _ Hlt) as [b Hb].
    rewrite lookup_app_l by done. rewrite Hb. split; [done|lia].
  - split; [|lia].
    rewrite lookup_app_r by lia. by rewrite Nat.sub_diag.
Qed.

(** A turn that stops before line 64 leaves every stored position as it was. *)
Lemma untouched_store s s' :
  wf s ->
  heap s' = (heap s ++ [new_board])%list -> boards s' = boards s ->
  wf s' /\ forall c, stored_position s' c = stored_position s c.
Proof.
  intros [Hval Hinj] Hh Hb. split.
  - split.
    + intros c l. rewrite Hb, Hh, length_app. intros H%Hval. lia.
    + intros c1 c2 l. rewrite Hb. apply Hinj.
  - intros c. unfold stored_position. rewrite Hb, Hh.
    destruct (boards s !! c) as [l|] eqn:Hl; [|done].
    apply lookup_app_l. by eapply Hval.
Qed.

(** A turn that passed line 64: the context's entry refers to [board], whose
    position went through the pushes [f]; nothing else moved. *)
Lemma committed_store s s' cid f :
  wf s ->
  let board := default (length (heap s)) (boards s !! cid) in
  heap s' = alter f board (heap s ++ [new_board]) ->
  boards s' = <[cid := board]> (boards s) ->
  wf s'
  /\ stored_position s' cid = Some (f (current_board s cid))
  /\ forall c, c <> cid -> stored_position s' c = stored_position s c.
Proof.
  intros Hwf board Hh Hb.
  destruct (board_fresh_or_stored s cid Hwf) as [Hcur Hlt].
  fold board in Hcur, Hlt. destruct Hwf as [Hval Hinj].
  assert (Hother : forall c l, c <> cid -> boards s !! c = Some l ->
                     l < length (heap s) /\ l <> board).
  { intros c l Hc Hl. split; [by eapply Hval|].
    unfold board. destruct (boards s !! cid) as [l0|] eqn:Hl0; simpl.
    - intros ->. by apply Hc, (Hinj c cid l0).
    - apply Hval in Hl. lia. }
  split; [split|split].
  - intros c l. rewrite Hb, Hh, length_alter.
    destruct (decide (c = cid)) as [->|Hc].
    + rewrite lookup_insert_eq. by intros [= <-].
    + rewrite lookup_insert_ne by done. intros Hl.
      destruct (Hother _ _ Hc Hl). rewrite length_app. lia.
  - intros c1 c2 l. rewrite Hb.
    destruct (decide (c1 = cid)) as [->|H1], (decide (c2 = cid)) as [->|H2];
      rewrite ?lookup_insert_eq, ?lookup_insert_ne by done; try done.
    + intros [= <-] Hl. by destruct (Hother _ _ H2 Hl).
    + intros Hl [= <-]. by destruct (Hother _ _ H1 Hl).
    + apply Hinj.
  - unfold stored_position. rewrite Hb, lookup_insert_eq, Hh.
    by rewrite list_lookup_alter_eq, Hcur.
  - intros c Hc. unfold stored_position.
    rewrite Hb, lookup_insert_ne by done. rewrite Hh.
    destruct (boards s !! c) as [l|] eqn:Hl; [|done].
    destruct (Hother _ _ Hc Hl) as [Hlt' Hne].
    rewrite list_lookup_alter_ne by done. by apply lookup_app_l.
Qed.

(** ** The engine bridge and the image writer, as functions *)

Lemma _get_stockfish_move_answer fuel env board s :
  exists s',
    _get_stockfish_move fuel env board s
    = (answer fuel env (engine_path s) (default new_board (heap s !! board)), s')
    /\ same_store s s'.
Proof.
  unfold _get_stockfish_move, answer, try_except, bind, get_engine_path,
    communicate, first_legal_move, deref, emit, lift, raise, ret, bind.
  simpl.
  destruct (create_subprocess_exec env (engine_path s)) as [e|p]; simpl.
  { destruct (exn_cls e); eexists; split; try reflexivity; apply same_store_refl. }
  destruct (communicated fuel p _) as [[stdout stderr]|]; simpl;
    [|eexists; split; [reflexivity|by repeat split]].
  destruct (decode stdout) as [output|]; simpl;
    [|eexists; split; [reflexivity|by repeat split]].
  destruct (scan_bestmove (split_lines output)) as [e|r]; simpl.
  - destruct (exn_cls e); eexists; (split; [reflexivity|by repeat split]).
  - eexists; split; [reflexivity|by repeat split].
Qed.

Lemma _save_board_image_url env svg cid tid s :
  exists s',
    _save_board_image env svg cid tid s = (Ret (image_url env svg cid tid), s')
    /\ same_store s s'.
Proof.
  unfold _save_board_image, image_url, try_except, bind, emit, raise, ret.
  destruct (svg2png env svg) as [e|png]; simpl;
    [eexists; split; [reflexivity|apply same_store_refl]|].
  destruct (gettempdir env) as [e|tmp]; simpl;
    [eexists; split; [reflexivity|apply same_store_refl]|].
  destruct (file_open env _) as [e|]; simpl;
    [eexists; split; [reflexivity|apply same_store_refl]|].
  destruct (file_write env _ png) as [[e written]|[]]; simpl;
    eexists; (split; [reflexivity|by repeat split]).
Qed.


(** ** The turn, as a function of the current position *)

Lemma process_messages_turn fuel env messages context_id task_id s :
  wf s ->
  let cid := py_or context_id (uuid4_context env) in
  let tid := py_or task_id (uuid4_task env) in
  let b := current_board s cid in
  exists s',
    process_messages fuel env messages context_id task_id s
    = (turn fuel env (engine_path s) messages cid tid b, s')
    /\ engine_path s' = engine_path s
    /\ wf s'
    /\ stored_position s' cid
       = match position_after fuel env (engine_path s) messages b with
         | Some b' => Some b'
         | None => stored_position s cid
         end
    /\ (forall c, c <> cid -> stored_position s' c = stored_position s c)
    /\ (position_after fuel env (engine_path s) messages b = None ->
        boards s' = boards s).
Proof.
  intros Hwf cid tid b.
  destruct (board_fresh_or_stored s cid Hwf) as [Hcur Hlt].
  set (board := default (length (heap s)) (boards s !! cid)) in *.
  unfold process_messages, turn, position_after, human_move.
  fold cid tid. unfold bind at 1. simpl. unfold bind at 1. simpl. fold board.
  destruct (last messages) as [user_message|]; simpl.
  2:{ eexists. split; [reflexivity|]. simpl.
      destruct (untouched_store s
        {| engine_path := engine_path s; boards := boards s;
           heap := heap s ++ [new_board]; effects := effects s |} Hwf)
        as [Hwf' Hsame]; try done. }
  unfold bind at 1.
  destruct (extract_move_text (msg_parts user_message)) as [e|move_text]; simpl.
  { eexists. split; [reflexivity|]. simpl.
    destruct (untouched_store s
        {| engine_path := engine_path s; boards := boards s;
           heap := heap s ++ [new_board]; effects := effects s |} Hwf)
        as [Hwf' Hsame]; try done. }
  unfold bind at 1. simpl. rewrite Hcur. simpl. fold b.
  destruct (parse_san b move_text) as [move|]; simpl.
  2:{ eexists. split; [reflexivity|]. simpl.
      destruct (untouched_store s
        {| engine_path := engine_path s; boards := boards s;
           heap := heap s ++ [new_board]; effects := effects s |} Hwf)
        as [Hwf' Hsame]; try done. }
  unfold bind at 1. simpl. unfold bind at 1. simpl. unfold bind at 1.
  match goal with |- context [_get_stockfish_move fuel env board ?S] =>
    destruct (_get_stockfish_move_answer fuel env board S)
      as (s1 & -> & Hp1 & Hb1 & Hh1)
  end.
  simpl in Hp1, Hb1, Hh1 |- *.
  rewrite list_lookup_alter_eq, Hcur. simpl. fold b.
  assert (Hdone : forall s' f,
            engine_path s' = engine_path s ->
            boards s' = <[cid := board]> (boards s) ->
            heap s' = alter f board (heap s ++ [new_board]) ->
            engine_path s' = engine_path s /\ wf s'
            /\ stored_position s' cid = Some (f b)
            /\ (forall c, c <> cid -> stored_position s' c = stored_position s c)
            /\ (Some (f b) = None -> boards s' = boards s)).
  { intros s' f Hp Hb Hh.
    destruct (committed_store s s' cid f Hwf Hh Hb) as (? & ? & ?).
    by repeat (split; [done|]). }
  destruct (answer fuel env (engine_path s) (push b move)) as [ai_move|e|];
    [|eexists; split; [reflexivity|by apply (Hdone s1 (fun b => push b move))]..].
  assert (Htail : forall ai_move_san s2 f,
            engine_path s2 = engine_path s ->
            boards s2 = <[cid := board]> (boards s) ->
            heap s2 = alter f board (heap s ++ [new_board]) ->
            exists s',
              bind (deref board)
                (fun b0 =>
                   bind (_save_board_image env (svg_board b0) cid tid)
                     (fun board_url =>
                        ret (task_result messages cid tid ai_move_san
                               board_url b0))) s2
              = (Ret (task_result messages cid tid ai_move_san
                        (image_url env (svg_board (f b)) cid tid) (f b)), s')
              /\ engine_path s' = engine_path s
              /\ boards s' = <[cid := board]> (boards s)
              /\ heap s' = alter f board (heap s ++ [new_board])).
  { intros ai_move_san s2 f Hp Hb Hh.
    unfold bind at 1. simpl. rewrite Hh, list_lookup_alter_eq, Hcur. simpl.
    fold b. unfold bind.
    destruct (_save_board_image_url env (svg_board (f b)) cid tid s2)
      as (s3 & -> & Hp3 & Hb3 & Hh3).
    exists s3. split; [reflexivity|]. by rewrite Hp3, Hb3, Hh3. }
  unfold counter_move.
  destruct ai_move as [m|]; [destruct (move_bool m)|].
  - unfold bind at 1. unfold bind at 1. simpl.
    rewrite Hh1, list_lookup_alter_eq, Hcur. simpl. fold b.
    destruct (san (push b move) m) as [e|text]; simpl.
    { eexists; split; [reflexivity|by apply (Hdone s1 (fun b => push b move))]. }
    destruct (Htail text
                {| engine_path := engine_path s1; boards := boards s1;
                   heap := alter (fun b => push b m) board (heap s1);
                   effects := effects s1 |}
                (fun b => push (push b move) m))
      as (s' & E & Hp' & Hb' & Hh'); simpl; try done.
    { by rewrite Hh1, list_alter_alter_eq. }
    exists s'. split; [exact E|].
    by apply (Hdone s' (fun b => push (push b move) m)).
  - unfold bind at 1. simpl.
    destruct (Htail "No legal moves available" s1 (fun b => push b move))
      as (s' & E & Hp' & Hb' & Hh'); try done.
    exists s'. split; [exact E|].
    by apply (Hdone s' (fun b => push b move)).
  - unfold bind at 1. simpl.
    destruct (Htail "No legal moves available" s1 (fun b => push b move))
      as (s' & E & Hp' & Hb' & Hh'); try done.
    exists s'. split; [exact E|].
    by apply (Hdone s' (fun b => push b move)).
Qed.

(** ** The engine bridge *)

Lemma _get_stockfish_move_fst fuel env board s :
  fst (_get_stockfish_move fuel env board s)
  = answer fuel env (engine_path s) (default new_board (heap s !! board)).
Proof.
  by destruct (_get_stockfish_move_answer fuel env board s) as (s' & -> & _).
Qed.

(** The bridge never raises: whatever goes wrong inside the [try] ends in
    one of the two handlers. *)
Lemma _get_stockfish_move_never_raises fuel env board s e :
  fst (_get_stockfish_move fuel env board s) <> Raise e.
Proof.
  rewrite _get_stockfish_move_fst. unfold answer. by repeat case_match.
Qed.

(** An engine that cannot be started: the first legal move, and no move
    exactly when the position has none. *)
Lemma _get_stockfish_move_unreachable fuel env board s e :
  create_subprocess_exec env (engine_path s) = inl e ->
  let moves := legal_moves (default new_board (heap s !! board)) in
  fst (_get_stockfish_move fuel env board s) = Ret (head moves)
  /\ (head moves = None <-> moves = [])
  /\ (forall m, head moves = Some m -> m ∈ moves).
Proof.
  intros He moves. rewrite _get_stockfish_move_fst. unfold answer.
  rewrite He. fold moves. split; [done|].
  destruct moves as [|m ms]; simpl; split; try done.
  intros m' [= <-]. apply list_elem_of_here.
Qed.

Lemma scan_bestmove_none lines :
  Forall (fun line => startswith "bestmove" line = false) lines ->
  scan_bestmove lines = inr None.
Proof.
  induction 1 as [|line lines Hline _ IH]; [done|].
  cbn [scan_bestmove]. by rewrite Hline.
Qed.

(** C1.  The engine process ran, and its output holds no line that starts
    with [bestmove]: the bridge returns [None] (line 145), whatever the
    legal moves of the position are; it does not fall back on the first
    legal move. *)
Theorem stockfish_without_bestmove_returns_None
    fuel env board s p stdout stderr output :
  create_subprocess_exec env (engine_path s) = inr p ->
  communicated fuel p (join (commands (default new_board (heap s !! board))))
  = Some (stdout, stderr) ->
  decode stdout = Some output ->
  Forall (fun line => startswith "bestmove" line = false) (split_lines output) ->
  fst (_get_stockfish_move fuel env board s) = Ret None.
Proof.
  intros Hp Hread Hdec Hlines.
  destruct (_get_stockfish_move_answer fuel env board s) as (s' & -> & _).
  simpl. unfold answer.
  by rewrite Hp, Hread, Hdec, (scan_bestmove_none _ Hlines).
Qed.

Lemma answer_Pending fuel env path b p :
  create_subprocess_exec env path = inr p ->
  answer fuel env path b = Pending
  <-> communicated fuel p (join (commands b)) = None.
Proof.
  intros Hp. unfold answer. rewrite Hp.
  destruct (communicated fuel p _) as [[stdout stderr]|]; [|done].
  split; [|done]. by repeat case_match.
Qed.

Lemma answer_mono fuel fuel' env path b :
  fuel <= fuel' ->
  answer fuel env path b <> Pending ->
  answer fuel' env path b = answer fuel env path b.
Proof.
  intros Hle. unfold answer.
  destruct (create_subprocess_exec env path) as [e|p]; [done|].
  destruct (communicated fuel p _) as [streams|] eqn:Hr; [|done].
  by rewrite (communicated_mono _ _ _ _ _ Hr Hle).
Qed.

(** C2, as amended.  Nothing in the bridge bounds the wait: with the engine
    started, the call is still pending after [fuel] ticks exactly when,
    within them, the engine has not closed its output, or has not closed
    its error stream, or has not exited; and an answer, once given, is the
    same however much longer one would have waited. *)
Theorem stockfish_waits_for_streams_and_exit fuel env board s p :
  create_subprocess_exec env (engine_path s) = inr p ->
  let input := join (commands (default new_board (heap s !! board))) in
  (fst (_get_stockfish_move fuel env board s) = Pending
   <-> (forall n, n < fuel -> proc_stdout p input n <> Eof)
       \/ (forall n, n < fuel -> proc_stderr p input n <> Eof)
       \/ (forall t, proc_exit p input = Some t -> fuel <= t))
  /\ (forall fuel',
        fuel <= fuel' ->
        fst (_get_stockfish_move fuel env board s) <> Pending ->
        fst (_get_stockfish_move fuel' env board s)
        = fst (_get_stockfish_move fuel env board s)).
Proof.
  intros Hp input. rewrite _get_stockfish_move_fst. split.
  - rewrite (answer_Pending _ _ _ _ _ Hp). apply communicated_None.
  - intros fuel' Hle Hret. rewrite _get_stockfish_move_fst.
    by apply answer_mono.
Qed.

(** C8.  What the bridge does to the outside, for every position: when the
    engine starts, it writes the four commands to the engine's input, each
    ended by a line feed and in this order (identify, readiness check,
    position with the FEN, search with the time budget), in one piece, and
    closes the input; it does so before it waits, and does nothing else.
    When the engine does not start, nothing is written. *)
Theorem stockfish_commands_written fuel env board s :
  effects (snd (_get_stockfish_move fuel env board s))
  = effects s ++
    match create_subprocess_exec env (engine_path s) with
    | inr _ =>
        [ Exec (engine_path s);
          StdinWrite
            ("uci" +:+ nl +:+
             "isready" +:+ nl +:+
             ("position fen " +:+ fen (default new_board (heap s !! board))
              +:+ nl) +:+
             "go movetime 1000" +:+ nl);
          StdinClose ]
    | inl _ => []
    end.
Proof.
  unfold _get_stockfish_move, try_except, bind, get_engine_path,
    communicate, first_legal_move, deref, emit, lift, raise, ret, bind.
  simpl.
  destruct (create_subprocess_exec env (engine_path s)) as [e|p]; simpl.
  { by destruct (exn_cls e); simpl; rewrite app_nil_r. }
  destruct (communicated fuel p _) as [[stdout stderr]|]; simpl;
    [|by rewrite <- !app_assoc].
  destruct (decode stdout) as [output|]; simpl; [|by rewrite <- !app_assoc].
  destruct (scan_bestmove (split_lines output)) as [e|r]; simpl.
  - by destruct (exn_cls e); simpl; rewrite <- !app_assoc.
  - by rewrite <- !app_assoc.
Qed.

(** ** Turns that fail, turns that succeed *)

Lemma extract_move_text_no_text parts :
  Forall (fun part => part_kind part <> "text") parts ->
  extract_move_text parts = inr EmptyString.
Proof.
  induction 1 as [|part parts Hpart _ IH]; [done|].
  cbn [extract_move_text]. by apply String.eqb_neq in Hpart as ->.
Qed.

(** A turn whose human move cannot be had stops before line 64. *)
Lemma process_messages_aborted fuel env messages context_id task_id s e :
  wf s ->
  human_move messages
    (current_board s (py_or context_id (uuid4_context env))) = inl e ->
  exists s',
    process_messages fuel env messages context_id task_id s = (Raise e, s')
    /\ wf s'
    /\ boards s' = boards s
    /\ forall c, stored_position s' c = stored_position s c.
Proof.
  intros Hwf He.
  destruct (process_messages_turn fuel env messages context_id task_id s Hwf)
    as (s' & E & _ & Hwf' & Hcid & Hframe & Hboards).
  unfold turn, position_after in *. rewrite He in *.
  exists s'. repeat (split; [done|]). split; [by apply Hboards|].
  intros c. destruct (decide (c = py_or context_id (uuid4_context env)))
    as [->|Hc]; [done|by apply Hframe].
Qed.

Lemma bind_Ret {A B} (c : M A) (k : A -> M B) s r s' :
  bind c k s = (Ret r, s') ->
  exists a s1, c s = (Ret a, s1) /\ k a s1 = (Ret r, s').
Proof.
  unfold bind. destruct (c s) as [[a|e|] s1]; [eauto|done|done].
Qed.

(** Every result is assembled by lines 78-118 for some notation, image
    reference and position. *)
Lemma process_messages_Ret_shape fuel env messages context_id task_id s r s' :
  process_messages fuel env messages context_id task_id s = (Ret r, s') ->
  exists ai_move_san board_url b,
    r = task_result messages (py_or context_id (uuid4_context env))
          (py_or task_id (uuid4_task env)) ai_move_san board_url b.
Proof.
  unfold process_messages. intros H.
  apply bind_Ret in H as (fresh & s1 & _ & H).
  apply bind_Ret in H as (board & s2 & _ & H).
  destruct (last messages) as [user_message|]; [|done].
  apply bind_Ret in H as (move_text & s3 & _ & H).
  apply bind_Ret in H as (b & s4 & _ & H).
  destruct (parse_san b move_text) as [move|]; [|done].
  apply bind_Ret in H as (? & s5 & _ & H).
  apply bind_Ret in H as (? & s6 & _ & H).
  apply bind_Ret in H as (ai_move & s7 & _ & H).
  apply bind_Ret in H as (ai_move_san & s8 & _ & H).
  apply bind_Ret in H as (b' & s9 & _ & H).
  apply bind_Ret in H as (board_url & s10 & _ & H).
  injection H as <- _. by exists ai_move_san, board_url, b'.
Qed.

(** ** The invariant of the store *)

Lemma wf_init path : wf (init path).
Proof. split; simpl; intros *; by rewrite lookup_empty. Qed.

Lemma wf_cleanup s : wf (snd (cleanup s)).
Proof. split; simpl; intros *; by rewrite lookup_empty. Qed.

Lemma wf_process_messages fuel env messages context_id task_id s :
  wf s -> wf (snd (process_messages fuel env messages context_id task_id s)).
Proof.
  intros Hwf.
  by destruct (process_messages_turn fuel env messages context_id task_id s Hwf)
    as (s' & -> & _ & Hwf' & _).
Qed.

(** ** The claims on [process_messages] *)

(** C3, as amended.  With no message the turn raises
    [ValueError("No message provided")]; with a latest message that has no
    part of kind ["text"] the move text is empty and, the empty text being
    no move, the turn raises [ValueError("Invalid move: ")], the failure of
    an illegal move.  Either way the store is left as it was. *)
Theorem process_messages_without_move_text
    fuel env messages context_id task_id s :
  wf s ->
  (messages = [] ->
   exists s',
     process_messages fuel env messages context_id task_id s
     = (Raise (Exn ValueError "No message provided"), s')
     /\ boards s' = boards s
     /\ forall c, stored_position s' c = stored_position s c)
  /\ (forall user_message,
        last messages = Some user_message ->
        Forall (fun part => part_kind part <> "text") (msg_parts user_message) ->
        parse_san (current_board s (py_or context_id (uuid4_context env)))
          EmptyString = None ->
        exists s',
          process_messages fuel env messages context_id task_id s
          = (Raise (Exn ValueError "Invalid move: "), s')
          /\ boards s' = boards s
          /\ forall c, stored_position s' c = stored_position s c).
Proof.
  intros Hwf. split.
  - intros ->.
    destruct (process_messages_aborted fuel env [] context_id task_id s
                InvalidInput Hwf) as (s' & E & _ & Hb & Hs); [done|].
    by exists s'.
  - intros user_message Hlast Hparts Hparse.
    destruct (process_messages_aborted fuel env messages context_id task_id s
                (IllegalMove EmptyString) Hwf) as (s' & E & _ & Hb & Hs).
    { unfold human_move.
      by rewrite Hlast, (extract_move_text_no_text _ Hparts), Hparse. }
    by exists s'.
Qed.


(** C9.  The history of a result is the messages received followed by one
    message, of role ["agent"], and that message is the one in the status. *)
Theorem process_messages_history
    fuel env messages context_id task_id s r s' :
  process_messages fuel env messages context_id task_id s = (Ret r, s') ->
  res_history r = messages ++ [status_message (res_status r)]
  /\ msg_role (status_message (res_status r)) = "agent".
Proof.
  intros H.
  by destruct (process_messages_Ret_shape _ _ _ _ _ _ _ _ H)
    as (ai_move_san & board_url & b & ->).
Qed.

Lemma py_or_nonempty c d : c <> EmptyString -> py_or (Some c) d = c.
Proof. by destruct c. Qed.

(** What a turn that returned went through. *)
Lemma process_messages_Ret fuel env messages context_id task_id s r s' :
  wf s ->
  process_messages fuel env messages context_id task_id s = (Ret r, s') ->
  let cid := py_or context_id (uuid4_context env) in
  let tid := py_or task_id (uuid4_task env) in
  let b := current_board s cid in
  exists move ai_move ai_move_san b',
    human_move messages b = inr move
    /\ answer fuel env (engine_path s) (push b move) = Ret ai_move
    /\ counter_move (push b move) ai_move = inr (b', ai_move_san)
    /\ r = task_result messages cid tid ai_move_san
             (image_url env (svg_board b') cid tid) b'
    /\ stored_position s' cid = Some b'
    /\ engine_path s' = engine_path s
    /\ wf s'.
Proof.
  intros Hwf H cid tid b.
  destruct (process_messages_turn fuel env messages context_id task_id s Hwf)
    as (s1 & E & Hp & Hwf' & Hcid & _).
  fold cid tid b in E, Hcid. rewrite H in E. injection E as E <-.
  unfold turn in E. unfold position_after in Hcid.
  destruct (human_move messages b) as [e|move] eqn:Hm; [done|].
  destruct (answer fuel env (engine_path s) (push b move))
    as [ai_move|e|] eqn:Ha; [|done..].
  destruct (counter_move (push b move) ai_move)
    as [e|[b' ai_move_san]] eqn:Hcm; [done|].
  injection E as ->. by exists move, ai_move, ai_move_san, b'.
Qed.

(** C5, as amended.  For a context id that is not empty: the position a
    successful call leaves stored is the one reached by the human's move and
    the engine's counter-move, and the next call for the context is the
    turn played from that position. *)
Theorem sequential_calls_share_position
    fuel1 env1 messages1 task_id1 c s r1 s1 :
  wf s ->
  c <> EmptyString ->
  process_messages fuel1 env1 messages1 (Some c) task_id1 s = (Ret r1, s1) ->
  exists move ai_move ai_move_san b1,
    human_move messages1 (current_board s c) = inr move
    /\ answer fuel1 env1 (engine_path s) (push (current_board s c) move)
       = Ret ai_move
    /\ counter_move (push (current_board s c) move) ai_move
       = inr (b1, ai_move_san)
    /\ stored_position s1 c = Some b1
    /\ current_board s1 c = b1
    /\ forall fuel2 env2 messages2 task_id2,
         fst (process_messages fuel2 env2 messages2 (Some c) task_id2 s1)
         = turn fuel2 env2 (engine_path s) messages2 c
             (py_or task_id2 (uuid4_task env2)) b1.
Proof.
  intros Hwf Hc H.
  destruct (process_messages_Ret _ _ _ _ _ _ _ _ Hwf H)
    as (move & ai_move & ai_move_san & b1 & Hm & Ha & Hcm & _ & Hs & Hp & Hwf1).
  rewrite (py_or_nonempty c (uuid4_context env1) Hc) in Hm, Ha, Hcm, Hs.
  exists move, ai_move, ai_move_san, b1. repeat (split; [done|]).
  assert (Hcur : current_board s1 c = b1) by (unfold current_board; by rewrite Hs).
  split; [done|]. intros fuel2 env2 messages2 task_id2.
  destruct (process_messages_turn fuel2 env2 messages2 (Some c) task_id2 s1 Hwf1)
    as (s2 & -> & _). cbn [fst].
  by rewrite (py_or_nonempty c _ Hc), Hcur, Hp.
Qed.

(** C6, as amended.  The position a returned turn leaves stored is the one
    after both moves: the human's move, and after it the move the engine
    bridge answered, when it answered one that is not the null move.  The
    state of the result is ["completed"] exactly when that position is
    reported as over, and ["input-required"] otherwise.  When the position
    after the human's move has no legal move, the rules engine reports such
    positions as over, and the engine proposes legal moves only, the turn
    is ["completed"] and the move artifact reads
    ["No legal moves available"].  (A move the engine proposes is not
    checked against the legal moves.) *)
Theorem process_messages_state fuel env messages context_id task_id s r s' :
  wf s ->
  process_messages fuel env messages context_id task_id s = (Ret r, s') ->
  let cid := py_or context_id (uuid4_context env) in
  let b := current_board s cid in
  exists move ai_move b',
    human_move messages b = inr move
    /\ answer fuel env (engine_path s) (push b move) = Ret ai_move
    /\ b' = match ai_move with
            | Some m =>
                if move_bool m then push (push b move) m else push b move
            | None => push b move
            end
    /\ res_contextId r = cid
    /\ stored_position s' cid = Some b'
    /\ status_state (res_status r)
       = (if is_game_over b' then "completed" else "input-required")
    /\ (legal_moves (push b move) = [] ->
        (forall p, legal_moves p = [] -> is_game_over p = true) ->
        (forall m,
           answer fuel env (engine_path s) (push b move) = Ret (Some m) ->
           move_bool m = true -> m ∈ legal_moves (push b move)) ->
        b' = push b move
        /\ status_state (res_status r) = "completed"
        /\ res_artifacts r !! 0%nat
           = Some {| art_name := "move";
                     art_parts := [text_part "No legal moves available"] |}).
Proof.
  intros Hwf H cid b.
  destruct (process_messages_Ret _ _ _ _ _ _ _ _ Hwf H)
    as (move & ai_move & ai_move_san & b' & Hm & Ha & Hcm & -> & Hs & _).
  fold cid b in Hm, Ha, Hcm, Hs. exists move, ai_move, b'.
  repeat (split; [done|]). split.
  { unfold counter_move in Hcm. destruct ai_move as [m|]; [|by injection Hcm].
    destruct (move_bool m); [|by injection Hcm].
    destruct (san (push b move) m); [done|by injection Hcm]. }
  repeat (split; [done|]). split.
  { simpl. by destruct (is_game_over b'). }
  intros Hnone Hover Hlegal.
  assert (Hno : counter_move (push b move) ai_move
                = inr (push b move, "No legal moves available")).
  { unfold counter_move. destruct ai_move as [m|]; [|done].
    destruct (move_bool m) eqn:Hbool; [|done].
    specialize (Hlegal m Ha Hbool). rewrite Hnone in Hlegal.
    by apply not_elem_of_nil in Hlegal. }
  rewrite Hno in Hcm. injection Hcm as <- <-.
  simpl. by rewrite (Hover _ Hnone).
Qed.

Lemma image_url_fails env svg cid tid :
  image_fails env svg cid tid <-> image_url env svg cid tid = EmptyString.
Proof.
  unfold image_fails, image_url.
  destruct (svg2png env svg) as [e|png]; [done|].
  destruct (gettempdir env) as [e|tmp]; [done|]. simpl.
  destruct (file_open env _) as [e|]; [split; [done|by left]|].
  destruct (file_write env _ png) as [failure|[]].
  - split; [done|]. intros _. right. by exists failure.
  - split; [|discriminate]. by intros [?|[? ?]].
Qed.

Lemma answer_same_engine fuel env env' path b :
  same_engine env env' -> answer fuel env path b = answer fuel env' path b.
Proof. intros (_ & _ & Hexec). unfold answer. by rewrite Hexec. Qed.

(** C7.  A turn whose board image cannot be made or stored does not fail
    for it.  The image writer itself returns the empty reference and never
    raises; and where the same turn returns a result in an environment
    with the same engine, the turn returns the same result with the empty
    reference in its board artifact, and leaves the same positions stored. *)
Theorem process_messages_image_failure
    fuel env env' messages context_id task_id s r' s1' :
  wf s ->
  same_engine env env' ->
  process_messages fuel env' messages context_id task_id s = (Ret r', s1') ->
  (forall b',
     stored_position s1' (res_contextId r') = Some b' ->
     image_fails env (svg_board b') (res_contextId r') (res_id r')) ->
  (forall b' s0,
     stored_position s1' (res_contextId r') = Some b' ->
     fst (_save_board_image env (svg_board b') (res_contextId r') (res_id r') s0)
     = Ret EmptyString)
  /\ exists r s1 move_artifact board_artifact',
      process_messages fuel env messages context_id task_id s = (Ret r, s1)
      /\ res_id r = res_id r'
      /\ res_contextId r = res_contextId r'
      /\ res_status r = res_status r'
      /\ res_history r = res_history r'
      /\ res_artifacts r' = [move_artifact; board_artifact']
      /\ res_artifacts r
         = [ move_artifact;
             {| art_name := "board"; art_parts := [file_part EmptyString] |} ]
      /\ forall c, stored_position s1 c = stored_position s1' c.
Proof.
  intros Hwf Hsame H' Hfail.
  split.
  { intros b' s0 Hb'.
    destruct (_save_board_image_url env (svg_board b') (res_contextId r')
                (res_id r') s0) as (s0' & -> & _).
    simpl. f_equal. by apply image_url_fails, Hfail. }
  destruct (process_messages_turn fuel env messages context_id task_id s Hwf)
    as (s1 & E & _ & _ & Hcid & Hframe & _).
  destruct (process_messages_turn fuel env' messages context_id task_id s Hwf)
    as (s1'' & E' & _ & _ & Hcid' & Hframe' & _).
  rewrite H' in E'. injection E' as E' <-.
  pose proof Hsame as (Hctx & Htask & Hexec).
  rewrite <- Hctx, <- Htask in *.
  set (cid := py_or context_id (uuid4_context env)) in *.
  set (tid := py_or task_id (uuid4_task env)) in *.
  set (b := current_board s cid) in *.
  assert (Hpos : position_after fuel env (engine_path s) messages b
                 = position_after fuel env' (engine_path s) messages b).
  { unfold position_after. destruct (human_move messages b); [done|].
    by rewrite (answer_same_engine fuel env env'). }
  assert (Hstored : stored_position s1 cid = stored_position s1' cid)
    by (by rewrite Hcid, Hcid', Hpos).
  unfold turn in E, E'. unfold position_after in Hcid'.
  destruct (human_move messages b) as [e|move]; [done|].
  rewrite (answer_same_engine fuel env env') in E by done.
  destruct (answer fuel env' (engine_path s) (push b move)) as [ai_move|e|];
    [|done..].
  destruct (counter_move (push b move) ai_move) as [e|[b' ai_move_san]]; [done|].
  injection E' as ->. simpl in Hfail.
  rewrite (proj1 (image_url_fails env _ _ _) (Hfail b' Hcid')) in E.
  eexists _, s1, _, _. split; [exact E|]. simpl.
  repeat (split; [done|]).
  intros c. destruct (decide (c = cid)) as [->|Hc]; [done|].
  by rewrite Hframe, Hframe'.
Qed.

(** C10.  After [cleanup] the store is empty: no context has a stored
    position, the position handed to a turn is the initial one for every
    context id, and a call returns what it returns on an agent just made. *)
Theorem cleanup_forgets_every_game s :
  boards (snd (cleanup s)) = ∅
  /\ (forall c, stored_position (snd (cleanup s)) c = None)
  /\ (forall c, current_board (snd (cleanup s)) c = new_board)
  /\ forall fuel env messages context_id task_id,
       fst (process_messages fuel env messages context_id task_id
              (snd (cleanup s)))
       = fst (process_messages fuel env messages context_id task_id
                (init (engine_path s))).
Proof.
  assert (Hnone : forall c, stored_position (snd (cleanup s)) c = None).
  { intros c. unfold stored_position. simpl. by rewrite lookup_empty. }
  assert (Hcur : forall c, current_board (snd (cleanup s)) c = new_board).
  { intros c. unfold current_board. by rewrite Hnone. }
  repeat (split; [done|]).
  intros fuel env messages context_id task_id.
  destruct (process_messages_turn fuel env messages context_id task_id
              (snd (cleanup s)) (wf_cleanup s)) as (s1 & -> & _).
  destruct (process_messages_turn fuel env messages context_id task_id
              (init (engine_path s)) (wf_init _)) as (s2 & -> & _).
  simpl. rewrite Hcur. unfold current_board, stored_position. simpl.
  by rewrite lookup_empty.
Qed.

End Properties.

(** * Further properties of the agent *)

Section Further.
Context {RE : RulesEngine}.

(** ** What a turn does to the outside *)

(** The effects of one call of the engine bridge for position [b]. *)
Definition engine_effects (env : Env) (path : string) (b : Board)
  : list effect :=
  match create_subprocess_exec env path with
  | inl _ => []
  | inr _ => [Exec path; StdinWrite (join (commands b)); StdinClose]
  end.

(** The effects of one call of the image writer. *)
Definition image_effects (env : Env) (svg_content context_id task_id : string)
  : list effect :=
  match svg2png env svg_content with
  | inl _ => []
  | inr png_data =>
      match gettempdir env with
      | inl _ => []
      | inr tmp_dir =>
          let file_path :=
            path_join tmp_dir (context_id +:+ "-" +:+ task_id +:+ ".png") in
          match file_open env file_path with
          | Some _ => []
          | None =>
              match file_write env file_path png_data with
              | inl (_, written) =>
                  [FileOpen file_path; FileWrite file_path written]
              | inr _ => [FileOpen file_path; FileWrite file_path png_data]
              end
          end
      end
  end.

(** The effects of a turn played from position [b], in their order. *)
Definition turn_effects (fuel : nat) (env : Env) (path : string)
    (messages : list A2AMessage) (context_id task_id : string) (b : Board)
  : list effect :=
  match human_move messages b with
  | inl _ => []
  | inr move =>
      engine_effects env path (push b move) ++
      match answer fuel env path (push b move) with
      | Ret ai_move =>
          match counter_move (push b move) ai_move with
          | inr (b', _) => image_effects env (svg_board b') context_id task_id
          | inl _ => []
          end
      | _ => []
      end
  end.

(** Whether a text holds a line feed. *)
Fixpoint has_line_feed (s : string) : bool :=
  match s with
  | EmptyString => false
  | String c r => Ascii.eqb c (ascii_of_nat 10) || has_line_feed r
  end.

(** A call on the agent, and a sequence of calls. *)
Inductive call :=
  | Turn (fuel : nat) (env : Env) (messages : list A2AMessage)
      (context_id task_id : option string)
  | Cleanup.

Definition do_call (s : agent) (c : call) : agent :=
  match c with
  | Turn fuel env messages context_id task_id =>
      snd (process_messages fuel env messages context_id task_id s)
  | Cleanup => snd (cleanup s)
  end.

Definition run_calls (cs : list call) (s : agent) : agent :=
  foldl do_call s cs.

Lemma alter_as_insert {A} (f : A -> A) (l : list A) i x :
  l !! i = Some x -> alter f i l = <[i := f x]> l.
Proof.
  intros Hx. rewrite list_insert_alter. apply list_alter_ext; [|done].
  intros y Hy. by simplify_eq.
Qed.

Lemma _get_stockfish_move_exec fuel env board s :
  _get_stockfish_move fuel env board s
  = (answer fuel env (engine_path s) (default new_board (heap s !! board)),
     {| engine_path := engine_path s; boards := boards s; heap := heap s;
        effects :=
          effects s ++
          engine_effects env (engine_path s)
            (default new_board (heap s !! board)) |}).
Proof.
  destruct s as [path bs h es].
  unfold _get_stockfish_move, answer, engine_effects, try_except, bind,
    get_engine_path, communicate, first_legal_move, deref, emit, lift, raise,
    ret, bind.
  simpl.
  destruct (create_subprocess_exec env path) as [e|p]; simpl.
  { by destruct (exn_cls e); simpl; rewrite app_nil_r. }
  destruct (communicated fuel p _) as [[stdout stderr]|]; simpl;
    [|by rewrite <- !app_assoc].
  destruct (decode stdout) as [output|]; simpl; [|by rewrite <- !app_assoc].
  destruct (scan_bestmove (split_lines output)) as [e|r]; simpl.
  - by destruct (exn_cls e); simpl; rewrite <- !app_assoc.
  - by rewrite <- !app_assoc.
Qed.

Lemma _save_board_image_exec env svg cid tid s :
  _save_board_image env svg cid tid s
  = (Ret (image_url env svg cid tid),
     {| engine_path := engine_path s; boards := boards s; heap := heap s;
        effects := effects s ++ image_effects env svg cid tid |}).
Proof.
  destruct s as [path bs h es].
  unfold _save_board_image, image_url, image_effects, try_except, bind, emit,
    raise, ret.
  simpl.
  destruct (svg2png env svg) as [e|png]; simpl; [by rewrite app_nil_r|].
  destruct (gettempdir env) as [e|tmp]; simpl; [by rewrite app_nil_r|].
  destruct (file_open env _) as [e|]; simpl; [by rewrite app_nil_r|].
  by destruct (file_write env _ png) as [[e written]|[]]; simpl;
    rewrite <- app_assoc.
Qed.

(** The whole of a turn: its outcome and the state it leaves. *)
Lemma process_messages_exec fuel env messages context_id task_id s :
  wf s ->
  let cid := py_or context_id (uuid4_context env) in
  let tid := py_or task_id (uuid4_task env) in
  let b := current_board s cid in
  let board := default (length (heap s)) (boards s !! cid) in
  process_messages fuel env messages context_id task_id s
  = (turn fuel env (engine_path s) messages cid tid b,
     {| engine_path := engine_path s;
        boards :=
          match position_after fuel env (engine_path s) messages b with
          | Some _ => <[cid := board]> (boards s)
          | None => boards s
          end;
        heap :=
          match position_after fuel env (engine_path s) messages b with
          | Some b' => <[board := b']> (heap s ++ [new_board])
          | None => heap s ++ [new_board]
          end;
        effects :=
          effects s ++
          turn_effects fuel env (engine_path s) messages cid tid b |}).
Proof.
  intros Hwf cid tid b board.
  destruct (board_fresh_or_stored s cid Hwf) as [Hcur Hlt].
  fold board b in Hcur, Hlt.
  unfold process_messages, turn, position_after, turn_effects, human_move.
  fold cid tid. unfold bind at 1. simpl. unfold bind at 1. simpl. fold board.
  destruct (last messages) as [user_message|]; simpl;
    [|by rewrite app_nil_r].
  unfold bind at 1.
  destruct (extract_move_text (msg_parts user_message)) as [e|move_text];
    simpl; [by rewrite app_nil_r|].
  unfold bind at 1. simpl. rewrite Hcur. simpl.
  destruct (parse_san b move_text) as [move|]; simpl; [|by rewrite app_nil_r].
  unfold bind at 1. simpl. unfold bind at 1. simpl. unfold bind at 1.
  rewrite _get_stockfish_move_exec. simpl.
  rewrite list_lookup_alter_eq, Hcur. simpl.
  rewrite (alter_as_insert _ _ _ _ Hcur).
  set (b1 := push b move).
  set (h1 := <[board := b1]> (heap s ++ [new_board])).
  assert (Hb1 : h1 !! board = Some b1)
    by (by apply list_lookup_insert_eq).
  assert (Htail : forall ai_move_san es b',
    bind (deref board)
      (fun b0 =>
         bind (_save_board_image env (svg_board b0) cid tid)
           (fun board_url =>
              ret (task_result messages cid tid ai_move_san board_url b0)))
      {| engine_path := engine_path s;
         boards := <[cid := board]> (boards s);
         heap := <[board := b']> (heap s ++ [new_board]);
         effects := effects s ++ es |}
    = (Ret (task_result messages cid tid ai_move_san
              (image_url env (svg_board b') cid tid) b'),
       {| engine_path := engine_path s;
          boards := <[cid := board]> (boards s);
          heap := <[board := b']> (heap s ++ [new_board]);
          effects :=
            effects s ++ es ++ image_effects env (svg_board b') cid tid |})).
  { intros ai_move_san es b'. unfold bind at 1. simpl.
    rewrite list_lookup_insert_eq by done. simpl. unfold bind.
    rewrite _save_board_image_exec. simpl. by rewrite <- app_assoc. }
  destruct (answer fuel env (engine_path s) b1) as [ai_move|e|];
    [|by rewrite app_nil_r..].
  unfold counter_move.
  destruct ai_move as [m|]; [destruct (move_bool m)|].
  - unfold bind at 1. unfold bind at 1. simpl. fold h1. rewrite Hb1. simpl.
    destruct (san b1 m) as [e|text]; simpl; [by rewrite app_nil_r|].
    unfold bind at 1. simpl.
    rewrite (alter_as_insert _ _ _ _ Hb1). unfold h1.
    rewrite list_insert_insert_eq.
    exact (Htail text _ (push b1 m)).
  - unfold bind at 1. simpl.
    exact (Htail "No legal moves available" _ b1).
  - unfold bind at 1. simpl.
    exact (Htail "No legal moves available" _ b1).
Qed.

(** ** The store over a sequence of calls *)

Lemma run_calls_invariant cs : forall s,
  wf s ->
  wf (run_calls cs s) /\ engine_path (run_calls cs s) = engine_path s.
Proof.
  induction cs as [|c cs IH]; intros s Hwf; [done|].
  assert (Hstep : wf (do_call s c) /\ engine_path (do_call s c) = engine_path s).
  { destruct c as [fuel env messages context_id task_id|]; simpl.
    - destruct (process_messages_turn fuel env messages context_id task_id s
                  Hwf) as (s' & -> & Hp & Hwf' & _). by split.
    - split; [apply wf_cleanup|done]. }
  destruct Hstep as [Hwf' Hp]. destruct (IH _ Hwf') as [? Hp'].
  split; [done|]. simpl. fold (run_calls cs (do_call s c)). by rewrite Hp', Hp.
Qed.

(** X1.  Whatever calls of [process_messages] and [cleanup] are made on an
    agent just built, in whatever order and with whatever outcome, every
    entry of the store refers to a board object that exists, no two
    contexts share a board object, and the engine path is the one the
    constructor was given. *)
Theorem store_invariant_over_calls path cs :
  wf (run_calls cs (init path))
  /\ engine_path (run_calls cs (init path)) = path.
Proof. apply (run_calls_invariant cs (init path)), wf_init. Qed.

(** X2.  A turn leaves the stored position of every context but its own as
    it was, whatever its outcome. *)
Theorem process_messages_other_contexts
    fuel env messages context_id task_id s c :
  wf s ->
  c <> py_or context_id (uuid4_context env) ->
  stored_position
    (snd (process_messages fuel env messages context_id task_id s)) c
  = stored_position s c.
Proof.
  intros Hwf Hc.
  destruct (process_messages_turn fuel env messages context_id task_id s Hwf)
    as (s' & -> & _ & _ & _ & Hframe & _).
  by apply Hframe.
Qed.

(** X3.  What a turn returns, and the position it leaves stored for its
    context, depend on the agent only through the engine path and the
    position stored for that context: the games of other contexts have no
    influence. *)
Theorem process_messages_isolated
    fuel env messages context_id task_id s t :
  wf s -> wf t ->
  engine_path s = engine_path t ->
  stored_position s (py_or context_id (uuid4_context env))
  = stored_position t (py_or context_id (uuid4_context env)) ->
  fst (process_messages fuel env messages context_id task_id s)
  = fst (process_messages fuel env messages context_id task_id t)
  /\ stored_position
       (snd (process_messages fuel env messages context_id task_id s))
       (py_or context_id (uuid4_context env))
     = stored_position
         (snd (process_messages fuel env messages context_id task_id t))
         (py_or context_id (uuid4_context env)).
Proof.
  intros Hs Ht Hp Hst.
  destruct (process_messages_turn fuel env messages context_id task_id s Hs)
    as (s' & -> & _ & _ & Hcs & _).
  destruct (process_messages_turn fuel env messages context_id task_id t Ht)
    as (t' & -> & _ & _ & Hct & _).
  simpl. unfold current_board in *. rewrite Hcs, Hct, Hp, Hst. by split.
Qed.

(** ** The engine bridge *)

(** X4.  The engine bridge never raises, whatever the engine does, and it
    changes neither the store nor any board. *)
Theorem stockfish_never_raises_nor_writes_the_store fuel env board s :
  (forall e, fst (_get_stockfish_move fuel env board s) <> Raise e)
  /\ engine_path (snd (_get_stockfish_move fuel env board s)) = engine_path s
  /\ boards (snd (_get_stockfish_move fuel env board s)) = boards s
  /\ heap (snd (_get_stockfish_move fuel env board s)) = heap s.
Proof.
  rewrite _get_stockfish_move_exec. simpl. split; [|done].
  intros e. unfold answer. by repeat case_match.
Qed.

(** X5.  When the engine cannot be started, for a missing binary as for
    any other exception, the bridge answers with the first legal move: it
    answers [None] exactly when the position has no legal move, a move it
    answers is a legal one, and nothing is sent anywhere. *)
Theorem stockfish_not_started_falls_back fuel env board s e :
  create_subprocess_exec env (engine_path s) = inl e ->
  let moves := legal_moves (default new_board (heap s !! board)) in
  fst (_get_stockfish_move fuel env board s) = Ret (head moves)
  /\ (head moves = None <-> moves = [])
  /\ (forall m, head moves = Some m -> m ∈ moves)
  /\ effects (snd (_get_stockfish_move fuel env board s)) = effects s.
Proof.
  intros He moves. rewrite _get_stockfish_move_exec. simpl.
  unfold answer, engine_effects. rewrite He. fold moves.
  rewrite app_nil_r. split; [done|]. split; [|split; [|done]].
  - by destruct moves.
  - destruct moves as [|m0 ms]; [done|]. intros m [= <-].
    apply list_elem_of_here.
Qed.

(** X6.  Output of the engine that is not UTF-8 makes the bridge answer
    with the first legal move. *)
Theorem stockfish_undecodable_output_falls_back
    fuel env board s p stdout stderr :
  create_subprocess_exec env (engine_path s) = inr p ->
  communicated fuel p (join (commands (default new_board (heap s !! board))))
  = Some (stdout, stderr) ->
  decode stdout = None ->
  fst (_get_stockfish_move fuel env board s)
  = Ret (head (legal_moves (default new_board (heap s !! board)))).
Proof.
  intros Hp Hread Hdec. rewrite _get_stockfish_move_exec. simpl.
  unfold answer. by rewrite Hp, Hread, Hdec.
Qed.

Lemma scan_bestmove_skip pre lines :
  Forall (fun line => startswith "bestmove" line = false) pre ->
  scan_bestmove (pre ++ lines) = scan_bestmove lines.
Proof.
  induction 1 as [|line pre Hline _ IH]; [done|].
  cbn [app scan_bestmove]. by rewrite Hline.
Qed.

Lemma scan_bestmove_first line rest :
  startswith "bestmove" line = true ->
  scan_bestmove (line :: rest)
  = match split line !! 1%nat with
    | None => inl (Exn IndexError "list index out of range")
    | Some move_uci =>
        match from_uci move_uci with
        | None => inl (Exn ValueError "invalid uci")
        | Some move => inr (Some move)
        end
    end.
Proof. intros H. cbn [scan_bestmove]. by rewrite H. Qed.

(** X7.  When the first line of the output that starts with [bestmove] has
    no second word, or a second word that is no move in UCI notation (such
    as the [(none)] an engine prints for a finished game), the bridge
    answers with the first legal move, whatever the later lines say. *)
Theorem stockfish_unusable_bestmove_falls_back
    fuel env board s p stdout stderr output pre line post :
  create_subprocess_exec env (engine_path s) = inr p ->
  communicated fuel p (join (commands (default new_board (heap s !! board))))
  = Some (stdout, stderr) ->
  decode stdout = Some output ->
  split_lines output = pre ++ line :: post ->
  Forall (fun l => startswith "bestmove" l = false) pre ->
  startswith "bestmove" line = true ->
  (split line !! 1%nat = None
   \/ exists word, split line !! 1%nat = Some word /\ from_uci word = None) ->
  fst (_get_stockfish_move fuel env board s)
  = Ret (head (legal_moves (default new_board (heap s !! board)))).
Proof.
  intros Hp Hread Hdec Hlines Hpre Hline Hword.
  rewrite _get_stockfish_move_exec. simpl. unfold answer.
  rewrite Hp, Hread, Hdec, Hlines, (scan_bestmove_skip _ _ Hpre),
    (scan_bestmove_first _ _ Hline).
  by destruct Hword as [->|(word & -> & ->)].
Qed.

(** X8.  The first line of the output that starts with [bestmove] decides:
    when its second word is a move in UCI notation, the bridge answers that
    move, whatever the later lines say and whether or not the move is a
    legal one in the position. *)
Theorem stockfish_first_bestmove_decides
    fuel env board s p stdout stderr output pre line post word move :
  create_subprocess_exec env (engine_path s) = inr p ->
  communicated fuel p (join (commands (default new_board (heap s !! board))))
  = Some (stdout, stderr) ->
  decode stdout = Some output ->
  split_lines output = pre ++ line :: post ->
  Forall (fun l => startswith "bestmove" l = false) pre ->
  startswith "bestmove" line = true ->
  split line !! 1%nat = Some word ->
  from_uci word = Some move ->
  fst (_get_stockfish_move fuel env board s) = Ret (Some move).
Proof.
  intros Hp Hread Hdec Hlines Hpre Hline Hword Hmove.
  rewrite _get_stockfish_move_exec. simpl. unfold answer.
  by rewrite Hp, Hread, Hdec, Hlines, (scan_bestmove_skip _ _ Hpre),
    (scan_bestmove_first _ _ Hline), Hword, Hmove.
Qed.

(** ** The image writer *)


(** ** The turn *)

Lemma answer_not_Raise fuel env path b e : answer fuel env path b <> Raise e.
Proof. unfold answer. by repeat case_match. Qed.

Lemma answer_Pending_started fuel env path b :
  answer fuel env path b = Pending ->
  engine_effects env path b
  = [Exec path; StdinWrite (join (commands b)); StdinClose].
Proof.
  unfold answer, engine_effects.
  by destruct (create_subprocess_exec env path).
Qed.

(** The outcome of a turn, with what it leaves of the store and of the
    effects. *)
Lemma process_messages_full fuel env messages context_id task_id s :
  wf s ->
  let cid := py_or context_id (uuid4_context env) in
  let tid := py_or task_id (uuid4_task env) in
  let b := current_board s cid in
  exists s',
    process_messages fuel env messages context_id task_id s
    = (turn fuel env (engine_path s) messages cid tid b, s')
    /\ stored_position s' cid
       = match position_after fuel env (engine_path s) messages b with
         | Some b' => Some b'
         | None => stored_position s cid
         end
    /\ (forall c, c <> cid -> stored_position s' c = stored_position s c)
    /\ boards s'
       = match position_after fuel env (engine_path s) messages b with
         | Some _ =>
             <[cid := default (length (heap s)) (boards s !! cid)]> (boards s)
         | None => boards s
         end
    /\ effects s'
       = effects s ++ turn_effects fuel env (engine_path s) messages cid tid b.
Proof.
  intros Hwf cid tid b.
  destruct (process_messages_turn fuel env messages context_id task_id s Hwf)
    as (s' & E & _ & _ & Hcid & Hframe & _).
  exists s'. split; [exact E|]. split; [exact Hcid|]. split; [exact Hframe|].
  rewrite (process_messages_exec fuel env messages context_id task_id s Hwf)
    in E.
  by injection E as <-.
Qed.

(** X10.  A turn raises in two ways only.  Either the human's move cannot
    be had (no message, a text part without text, a text [parse_san]
    rejects): then the store is as before, no engine was started and no
    file written.  Or the engine proposed a move whose notation [board.san]
    refuses: then the turn raises that exception after the human's move
    has been stored and the engine consulted. *)
Theorem process_messages_raises
    fuel env messages context_id task_id s e s' :
  wf s ->
  process_messages fuel env messages context_id task_id s = (Raise e, s') ->
  let cid := py_or context_id (uuid4_context env) in
  let b := current_board s cid in
  (human_move messages b = inl e
   /\ boards s' = boards s
   /\ effects s' = effects s
   /\ forall c, stored_position s' c = stored_position s c)
  \/ (exists move m,
        human_move messages b = inr move
        /\ answer fuel env (engine_path s) (push b move) = Ret (Some m)
        /\ move_bool m = true
        /\ san (push b move) m = inl e
        /\ stored_position s' cid = Some (push b move)
        /\ effects s'
           = effects s ++ engine_effects env (engine_path s) (push b move)).
Proof.
  intros Hwf H cid b.
  destruct (process_messages_full fuel env messages context_id task_id s Hwf)
    as (s1 & E & Hcid & Hframe & Hboards & Heff).
  fold cid b in E, Hcid, Hframe, Hboards, Heff.
  rewrite H in E. injection E as E <-.
  unfold turn in E. unfold position_after in Hcid, Hboards.
  unfold turn_effects in Heff.
  destruct (human_move messages b) as [e0|move].
  { left. injection E as ->. rewrite app_nil_r in Heff.
    repeat (split; [done|]). intros c.
    destruct (decide (c = cid)) as [->|Hc]; [done|by apply Hframe]. }
  right.
  destruct (answer fuel env (engine_path s) (push b move))
    as [ai_move|e0|] eqn:Ha; [|by destruct (answer_not_Raise _ _ _ _ _ Ha)|done].
  unfold counter_move in *.
  destruct ai_move as [m|]; [|done].
  destruct (move_bool m) eqn:Hbool; [|done].
  destruct (san (push b move) m) as [e0|text] eqn:Hsan; [|done].
  injection E as ->. rewrite app_nil_r in Heff.
  by exists move, m.
Qed.

(** X11.  A turn that is still waiting on the engine has already stored
    the human's move for its context, started the engine and sent it the
    commands: a turn given up at this point leaves the game one move on. *)
Theorem process_messages_pending
    fuel env messages context_id task_id s s' :
  wf s ->
  process_messages fuel env messages context_id task_id s = (Pending, s') ->
  let cid := py_or context_id (uuid4_context env) in
  let b := current_board s cid in
  exists move,
    human_move messages b = inr move
    /\ answer fuel env (engine_path s) (push b move) = Pending
    /\ stored_position s' cid = Some (push b move)
    /\ effects s'
       = effects s ++
         [ Exec (engine_path s);
           StdinWrite (join (commands (push b move)));
           StdinClose ].
Proof.
  intros Hwf H cid b.
  destruct (process_messages_full fuel env messages context_id task_id s Hwf)
    as (s1 & E & Hcid & _ & _ & Heff).
  fold cid b in E, Hcid, Heff.
  rewrite H in E. injection E as E <-.
  unfold turn in E. unfold position_after in Hcid.
  unfold turn_effects in Heff.
  destruct (human_move messages b) as [e0|move]; [done|].
  destruct (answer fuel env (engine_path s) (push b move))
    as [ai_move|e0|] eqn:Ha.
  - by destruct (counter_move (push b move) ai_move) as [?|[??]].
  - done.
  - exists move. rewrite app_nil_r, (answer_Pending_started _ _ _ _ Ha) in Heff.
    by repeat split.
Qed.

(** X12.  When the engine bridge answers with no move, or with the null
    move, a turn with a legal human move returns: its move artifact and
    message read ["No legal moves available"], the position stored is the
    one after the human's move, and the state is decided on that position
    (["input-required"] when the game is not over there). *)
Theorem process_messages_no_counter_move
    fuel env messages context_id task_id s move ai_move :
  wf s ->
  let cid := py_or context_id (uuid4_context env) in
  let tid := py_or task_id (uuid4_task env) in
  let b := current_board s cid in
  human_move messages b = inr move ->
  answer fuel env (engine_path s) (push b move) = Ret ai_move ->
  (forall m, ai_move = Some m -> move_bool m = false) ->
  exists s',
    process_messages fuel env messages context_id task_id s
    = (Ret (task_result messages cid tid "No legal moves available"
              (image_url env (svg_board (push b move)) cid tid)
              (push b move)), s')
    /\ stored_position s' cid = Some (push b move).
Proof.
  intros Hwf cid tid b Hm Ha Hnull.
  destruct (process_messages_full fuel env messages context_id task_id s Hwf)
    as (s' & E & Hcid & _).
  fold cid tid b in E, Hcid. exists s'.
  unfold turn in E. unfold position_after in Hcid. rewrite Hm, Ha in E, Hcid.
  assert (Hcm : counter_move (push b move) ai_move
                = inr (push b move, "No legal moves available")).
  { unfold counter_move. destruct ai_move as [m|]; [|done].
    by rewrite (Hnull m eq_refl). }
  rewrite Hcm in E, Hcid. by split.
Qed.

(** X13.  When the human's move is legal, the engine bridge answers with a
    move and [board.san] prints it, the turn returns: the move artifact
    carries that notation, and the position stored is the one after both
    moves, on which the state, the annotation and the image are made. *)
Theorem process_messages_counter_move
    fuel env messages context_id task_id s move m text :
  wf s ->
  let cid := py_or context_id (uuid4_context env) in
  let tid := py_or task_id (uuid4_task env) in
  let b := current_board s cid in
  human_move messages b = inr move ->
  answer fuel env (engine_path s) (push b move) = Ret (Some m) ->
  move_bool m = true ->
  san (push b move) m = inr text ->
  exists s',
    process_messages fuel env messages context_id task_id s
    = (Ret (task_result messages cid tid text
              (image_url env (svg_board (push (push b move) m)) cid tid)
              (push (push b move) m)), s')
    /\ stored_position s' cid = Some (push (push b move) m).
Proof.
  intros Hwf cid tid b Hm Ha Hbool Hsan.
  destruct (process_messages_full fuel env messages context_id task_id s Hwf)
    as (s' & E & Hcid & _).
  fold cid tid b in E, Hcid. exists s'.
  unfold turn in E. unfold position_after in Hcid. rewrite Hm, Ha in E, Hcid.
  unfold counter_move in E, Hcid. rewrite Hbool, Hsan in E, Hcid. by split.
Qed.

Lemma human_move_latest older message b :
  human_move (older ++ [message]) b = human_move [message] b.
Proof. unfold human_move. by rewrite last_snoc. Qed.

(** X14.  Only the latest message is played: with earlier messages before
    it the turn leaves the very same state, fails or waits alike, and
    returns the same result but for the history, which starts with the
    earlier messages. *)
Theorem process_messages_plays_latest_message
    fuel env older message context_id task_id s :
  wf s ->
  snd (process_messages fuel env (older ++ [message]) context_id task_id s)
  = snd (process_messages fuel env [message] context_id task_id s)
  /\ fst (process_messages fuel env (older ++ [message]) context_id task_id s)
     = match fst (process_messages fuel env [message] context_id task_id s)
       with
       | Ret r =>
           Ret {| res_id := res_id r;
                  res_contextId := res_contextId r;
                  res_status := res_status r;
                  res_artifacts := res_artifacts r;
                  res_history := older ++ res_history r |}
       | Raise e => Raise e
       | Pending => Pending
       end.
Proof.
  intros Hwf.
  rewrite !(process_messages_exec _ _ _ _ _ _ Hwf). simpl.
  unfold position_after, turn_effects, turn.
  rewrite human_move_latest. split; [done|].
  destruct (human_move [message] _) as [e|move]; [done|].
  destruct (answer _ _ _ _) as [ai_move|e|]; [|done..].
  destruct (counter_move _ _) as [e|[b' ai_move_san]]; [done|].
  simpl. unfold task_result. by rewrite <- app_assoc.
Qed.

(** X15.  A turn never removes a context from the store nor the position of
    any context: the contexts stored afterwards are those stored before
    and, at most, the turn's own. *)
Theorem process_messages_keeps_contexts
    fuel env messages context_id task_id s :
  wf s ->
  let s' := snd (process_messages fuel env messages context_id task_id s) in
  dom (boards s) ⊆ dom (boards s')
  /\ dom (boards s')
     ⊆ {[py_or context_id (uuid4_context env)]} ∪ dom (boards s)
  /\ forall c, is_Some (stored_position s c) -> is_Some (stored_position s' c).
Proof.
  intros Hwf s'.
  destruct (process_messages_full fuel env messages context_id task_id s Hwf)
    as (s1 & E & Hcid & Hframe & Hboards & _).
  subst s'. rewrite E. simpl. clear E.
  set (cid := py_or context_id (uuid4_context env)) in *.
  destruct (position_after _ _ _ _ _) as [b'|].
  - rewrite Hboards, dom_insert_L. split; [set_solver|]. split; [set_solver|].
    intros c Hc. destruct (decide (c = cid)) as [->|Hne].
    + by rewrite Hcid.
    + by rewrite Hframe.
  - rewrite Hboards. split; [done|]. split; [set_solver|].
    intros c Hc. destruct (decide (c = cid)) as [->|Hne].
    + by rewrite Hcid.
    + by rewrite Hframe.
Qed.

(** X16.  The ids of a result: a context id or task id that is given and
    not empty is used as it is, one that is absent or empty is replaced by
    the id drawn for it; the answering message carries the task id. *)
Theorem process_messages_ids fuel env messages context_id task_id s r s' :
  process_messages fuel env messages context_id task_id s = (Ret r, s') ->
  (forall c, context_id = Some c -> c <> EmptyString -> res_contextId r = c)
  /\ (context_id = None \/ context_id = Some EmptyString ->
      res_contextId r = uuid4_context env)
  /\ (forall i, task_id = Some i -> i <> EmptyString -> res_id r = i)
  /\ (task_id = None \/ task_id = Some EmptyString ->
      res_id r = uuid4_task env)
  /\ msg_taskId (status_message (res_status r)) = Some (res_id r).
Proof.
  intros H.
  destruct (process_messages_Ret_shape _ _ _ _ _ _ _ _ H)
    as (ai_move_san & board_url & b & ->).
  simpl. split; [|split; [|split; [|split]]].
  - intros c -> Hc. by apply py_or_nonempty.
  - by intros [->| ->].
  - intros i -> Hi. by apply py_or_nonempty.
  - by intros [->| ->].
  - done.
Qed.

(** X17.  The shape of a result: two artifacts, the move with one text
    part and the board with one file part, in this order; the text of the
    message is ["I played "] and the move artifact's text, followed by
    nothing, [" - Check!"] or [" - Checkmate!"]; the state is one of
    ["input-required"] and ["completed"]. *)
Theorem process_messages_result_shape
    fuel env messages context_id task_id s r s' :
  process_messages fuel env messages context_id task_id s = (Ret r, s') ->
  exists ai_move_san board_url annotation,
    res_artifacts r
    = [ {| art_name := "move"; art_parts := [text_part ai_move_san] |};
        {| art_name := "board"; art_parts := [file_part board_url] |} ]
    /\ msg_parts (status_message (res_status r))
       = [text_part ("I played " +:+ ai_move_san +:+ annotation)]
    /\ (annotation = EmptyString \/ annotation = " - Check!"
        \/ annotation = " - Checkmate!")
    /\ (status_state (res_status r) = "input-required"
        \/ status_state (res_status r) = "completed").
Proof.
  intros H.
  destruct (process_messages_Ret_shape _ _ _ _ _ _ _ _ H)
    as (ai_move_san & board_url & b & ->).
  exists ai_move_san, board_url,
    (if is_checkmate b then " - Checkmate!"
     else if is_check b then " - Check!" else EmptyString).
  simpl. repeat (split; [done|]). split.
  - destruct (is_checkmate b); [by right; right|].
    destruct (is_check b); [by right; left|by left].
  - destruct (is_game_over b); [by right|by left].
Qed.

(** X18.  A turn that returns has started the engine at most once and
    written at most one file, in this order: the effects it adds are those
    of one call of the engine bridge for the position after the human's
    move, followed by those of one call of the image writer for the
    position it leaves stored. *)
Theorem process_messages_effects fuel env messages context_id task_id s r s' :
  wf s ->
  process_messages fuel env messages context_id task_id s = (Ret r, s') ->
  exists move b',
    human_move messages
      (current_board s (py_or context_id (uuid4_context env))) = inr move
    /\ stored_position s' (py_or context_id (uuid4_context env)) = Some b'
    /\ effects s'
       = effects s ++
         engine_effects env (engine_path s)
           (push (current_board s (py_or context_id (uuid4_context env)))
              move) ++
         image_effects env (svg_board b')
           (py_or context_id (uuid4_context env))
           (py_or task_id (uuid4_task env)).
Proof.
  intros Hwf H.
  destruct (process_messages_full fuel env messages context_id task_id s Hwf)
    as (s1 & E & Hcid & _ & _ & Heff).
  rewrite H in E. injection E as E <-.
  unfold turn in E. unfold position_after in Hcid.
  unfold turn_effects in Heff.
  destruct (human_move messages _) as [e|move]; [done|].
  destruct (answer _ _ _ _) as [ai_move|e|]; [|done..].
  destruct (counter_move _ _) as [e|[b' ai_move_san]]; [done|].
  by exists move, b'.
Qed.

(** ** The commands, line by line *)

Lemma split_lines_line a r :
  has_line_feed a = false ->
  split_lines (a +:+ nl +:+ r) = a :: split_lines r.
Proof.
  induction a as [|c a IH]; intros Ha; [done|].
  cbn [has_line_feed] in Ha. apply orb_false_elim in Ha as [Hc Ha].
  simpl. rewrite Hc. by rewrite (IH Ha).
Qed.

Lemma append_assoc a b c : (a +:+ b) +:+ c = a +:+ b +:+ c.
Proof.
  induction a as [|x a IH]; [done|].
  change (String x ((a +:+ b) +:+ c) = String x (a +:+ b +:+ c)).
  by rewrite IH.
Qed.

(** X19.  When the FEN of the position holds no line feed, what the bridge
    sends reads back, split at the line feeds as the engine does, as
    exactly the four command lines and nothing after the last one. *)
Theorem commands_are_four_lines (b : Board) :
  has_line_feed (fen b) = false ->
  split_lines (join (commands b))
  = [ "uci"; "isready"; "position fen " +:+ fen b; "go movetime 1000";
      EmptyString ].
Proof.
  intros Hfen.
  assert (E : join (commands b)
              = "uci" +:+ nl +:+ "isready" +:+ nl +:+
                ("position fen " +:+ fen b) +:+ nl +:+
                "go movetime 1000" +:+ nl +:+ EmptyString).
  { unfold join, commands. cbn [foldr].
    by rewrite !append_assoc. }
  by rewrite E, !split_lines_line.
Qed.

End Further.

(** * The claims on concrete turns *)

Import Demo.
#[local] Existing Instance Mini.rules.

Lemma wf_after_e4_g5 : wf after_e4_g5.
Proof. apply wf_process_messages, wf_init. Qed.

Lemma wf_before_mate : wf before_mate.
Proof. apply wf_process_messages, wf_after_e4_g5. Qed.

Lemma hung_never_ends input fuel : communicated fuel hung input = None.
Proof.
  apply communicated_None. left. intros n _. discriminate.
Qed.

Lemma mini_no_move_is_over (p : list string) :
  legal_moves p = [] -> is_game_over p = true.
Proof. simpl. unfold Mini.is_game_over. by intros ->. Qed.

(** The turns of the game ["game"], run. *)

Lemma first_turn :
  process_messages 2 (env (inr (prints (bestmove "g7g5"))) "u1")
    [human "e4"] (Some "game") None new_agent
  = (Ret (e4_g5_result "game" "u1"), after_e4_g5).
Proof. vm_compute. reflexivity. Qed.

Lemma first_turn_stored :
  stored_position after_e4_g5 "game" = Some ["e2e4"; "g7g5"].
Proof. vm_compute. reflexivity. Qed.

Lemma mate_turn :
  process_messages 0 (env missing "u3") [human "Qh5#"] (Some "game") None
    before_mate
  = (Ret mate_result, mated).
Proof. vm_compute. reflexivity. Qed.

Lemma mate_turn_move :
  human_move [human "Qh5#"]
    (current_board before_mate
       (py_or (Some "game") (uuid4_context (env missing "u3"))))
  = inr "d1h5".
Proof. vm_compute. reflexivity. Qed.

Lemma mate_turn_no_move :
  legal_moves
    (push (current_board before_mate
             (py_or (Some "game") (uuid4_context (env missing "u3"))))
       "d1h5")
  = [].
Proof. vm_compute. reflexivity. Qed.

Lemma mate_turn_answer :
  answer 0 (env missing "u3") (engine_path before_mate)
    (push (current_board before_mate
             (py_or (Some "game") (uuid4_context (env missing "u3"))))
       "d1h5")
  = Ret None.
Proof. vm_compute. reflexivity. Qed.

Lemma mate_turn_stored : stored_position mated "game" = Some Mini.mate.
Proof. vm_compute. reflexivity. Qed.

(** C1 at work: after 1. e4 Black has twenty moves, the engine runs and
    prints no [bestmove] line, and the bridge returns [None]. *)
Lemma stockfish_without_bestmove_witness :
  length (legal_moves ["e2e4"]) = 20
  /\ fst (_get_stockfish_move 2
            (env (inr (prints ("uciok" +:+ nl +:+ "readyok" +:+ nl))) "u1")
            0 after_e4)
     = Ret None.
Proof.
  split; [reflexivity|].
  eapply (stockfish_without_bestmove_returns_None 2 _ 0 after_e4).
  - reflexivity.
  - vm_compute. reflexivity.
  - vm_compute. reflexivity.
  - vm_compute. repeat constructor.
Defined.

(** C2 at work.  An engine that prints its answer, closes its streams and
    exits keeps the call pending for one tick and no longer; one that
    closes its streams as early and exits at the fifth tick only keeps the
    call pending until then. *)
Lemma stockfish_waits_witness :
  fst (_get_stockfish_move 1 (env (inr (prints (bestmove "g7g5"))) "u1")
         0 after_e4) = Pending
  /\ fst (_get_stockfish_move 2 (env (inr (prints (bestmove "g7g5"))) "u1")
            0 after_e4) = Ret (Some "g7g5")
  /\ fst (_get_stockfish_move 5
            (env (inr (lingers 5 (bestmove "g7g5"))) "u1") 0 after_e4)
     = Pending
  /\ fst (_get_stockfish_move 6
            (env (inr (lingers 5 (bestmove "g7g5"))) "u1") 0 after_e4)
     = Ret (Some "g7g5").
Proof.
  split; [|split; [vm_compute; reflexivity|split; [|vm_compute; reflexivity]]].
  - apply (proj1 (stockfish_waits_for_streams_and_exit 1
                    (env (inr (prints (bestmove "g7g5"))) "u1") 0 after_e4
                    (prints (bestmove "g7g5")) eq_refl)).
    left. intros n Hn. destruct n; [discriminate|lia].
  - apply (proj1 (stockfish_waits_for_streams_and_exit 5
                    (env (inr (lingers 5 (bestmove "g7g5"))) "u1") 0 after_e4
                    (lingers 5 (bestmove "g7g5")) eq_refl)).
    right. right. intros t [= <-]. lia.
Defined.

(** C2 as stated fails: an engine that never closes its output keeps the
    call pending however long one waits; neither a bound nor a fall-back on
    the first legal move ends the wait. *)
Lemma stockfish_hung_engine_never_answers :
  ~ exists fuel,
      fst (_get_stockfish_move fuel (env (inr hung) "u1") 0 after_e4)
      <> Pending.
Proof.
  intros [fuel H]. apply H. rewrite _get_stockfish_move_fst.
  unfold answer. simpl. by rewrite hung_never_ends.
Qed.

(** C8 at work: what the engine is sent after 1. e4. *)
Lemma stockfish_commands_witness :
  effects (snd (_get_stockfish_move 2
                  (env (inr (prints (bestmove "g7g5"))) "u1") 0 after_e4))
  = [ Exec "/usr/games/stockfish";
      StdinWrite
        ("uci" +:+ nl +:+ "isready" +:+ nl +:+
         "position fen rnbqkbnr/pppppppp/8/8/4P3/8/PPPP1PPP/RNBQKBNR b KQkq - 0 1"
         +:+ nl +:+ "go movetime 1000" +:+ nl);
      StdinClose ].
Proof.
  exact (stockfish_commands_written 2
           (env (inr (prints (bestmove "g7g5"))) "u1") 0 after_e4).
Defined.

(** C3 at work, in the game after 1. e4 g5: no message, and a message
    without text. *)
Lemma process_messages_without_move_text_witness :
  (exists s',
     process_messages 0 (env missing "u1") [] (Some "game") None after_e4_g5
     = (Raise (Exn ValueError "No message provided"), s')
     /\ boards s' = boards after_e4_g5
     /\ forall c, stored_position s' c = stored_position after_e4_g5 c)
  /\ (exists s',
        process_messages 0 (env missing "u1") [attachment] (Some "game") None
          after_e4_g5
        = (Raise (Exn ValueError "Invalid move: "), s')
        /\ boards s' = boards after_e4_g5
        /\ forall c, stored_position s' c = stored_position after_e4_g5 c).
Proof.
  split.
  - apply (proj1 (process_messages_without_move_text 0 (env missing "u1") []
                    (Some "game") None after_e4_g5 wf_after_e4_g5)).
    reflexivity.
  - apply (proj2 (process_messages_without_move_text 0 (env missing "u1")
                    [attachment] (Some "game") None after_e4_g5
                    wf_after_e4_g5) attachment).
    + reflexivity.
    + repeat constructor. discriminate.
    + vm_compute. reflexivity.
Defined.

(** C3 as stated fails: a latest message without a part of kind ["text"]
    raises the failure of an illegal move, with the empty text, and not
    the failure raised for no message. *)
Lemma no_text_part_raises_illegal_move :
  fst (process_messages 0 (env missing "u1") [attachment] (Some "game") None
         new_agent)
  = Raise (IllegalMove EmptyString)
  /\ IllegalMove EmptyString <> InvalidInput.
Proof. split; [vm_compute; reflexivity|discriminate]. Qed.



(** C5 at work: the game after 1. e4 g5 is the position the next call for
    ["game"] is played from. *)
Lemma sequential_calls_witness :
  stored_position after_e4_g5 "game" = Some ["e2e4"; "g7g5"]
  /\ forall fuel2 env2 messages2 task_id2,
       fst (process_messages fuel2 env2 messages2 (Some "game") task_id2
              after_e4_g5)
       = turn fuel2 env2 "/usr/games/stockfish" messages2 "game"
           (py_or task_id2 (uuid4_task env2)) ["e2e4"; "g7g5"].
Proof.
  destruct (sequential_calls_share_position (RE := Mini.rules) 2
              (env (inr (prints (bestmove "g7g5"))) "u1") [human "e4"] None
              "game" new_agent (e4_g5_result "game" "u1") after_e4_g5
              (wf_init _))
    as (move & ai_move & ai_move_san & b1 & _ & _ & _ & Hs & _ & Hnext).
  - discriminate.
  - exact first_turn.
  - rewrite first_turn_stored in Hs. injection Hs as <-.
    split; [exact first_turn_stored|exact Hnext].
Defined.

(** C5 as stated fails for the empty context id: it counts as none, each
    call draws an id of its own, and the second call plays from the initial
    position (1. e4 is accepted again, which is no move after 1. e4 g5). *)
Lemma empty_context_id_starts_over :
  let first :=
    run 2 (env (inr (prints (bestmove "g7g5"))) "u1") "e4" (Some EmptyString)
      new_agent in
  let second :=
    run 2 (env (inr (prints (bestmove "g7g5"))) "u2") "e4" (Some EmptyString)
      (snd first) in
  fst first = Ret (e4_g5_result "u1" "u1")
  /\ stored_position (snd first) "u1" = Some ["e2e4"; "g7g5"]
  /\ stored_position (snd first) EmptyString = None
  /\ parse_san ["e2e4"; "g7g5"] "e4" = None
  /\ fst second = Ret (e4_g5_result "u2" "u2")
  /\ stored_position (snd second) "u2" = Some ["e2e4"; "g7g5"].
Proof. repeat split; vm_compute; reflexivity. Qed.

(** C6 at work: White mates with 3. Qh5, the engine cannot be started, and
    the turn is completed with no move for Black. *)
Lemma process_messages_state_witness :
  process_messages 0 (env missing "u3") [human "Qh5#"] (Some "game") None
    before_mate = (Ret mate_result, mated)
  /\ stored_position mated "game" = Some Mini.mate
  /\ status_state (res_status mate_result) = "completed"
  /\ res_artifacts mate_result !! 0%nat
     = Some {| art_name := "move";
               art_parts := [text_part "No legal moves available"] |}.
Proof.
  destruct (process_messages_state 0 (env missing "u3") [human "Qh5#"]
              (Some "game") None before_mate mate_result mated
              wf_before_mate mate_turn)
    as (move & ai_move & b' & Hm & _ & _ & _ & _ & _ & Hover).
  rewrite mate_turn_move in Hm. injection Hm as <-.
  destruct Hover as (_ & Hst & Hart).
  - exact mate_turn_no_move.
  - exact mini_no_move_is_over.
  - intros m Ha. rewrite mate_turn_answer in Ha. discriminate.
  - split; [exact mate_turn|]. split; [exact mate_turn_stored|].
    split; [exact Hst|exact Hart].
Defined.

(** C6 as stated fails: Black is mated by 3. Qh5 and has no legal move, the
    engine names one all the same, and the agent plays it: the turn is not
    completed and the move artifact reads the move. *)
Lemma mated_position_engine_names_a_move :
  stored_position before_mate "game" = Some ["e2e4"; "g7g5"; "b1c3"; "f7f5"]
  /\ parse_san ["e2e4"; "g7g5"; "b1c3"; "f7f5"] "Qh5#" = Some "d1h5"
  /\ legal_moves (push ["e2e4"; "g7g5"; "b1c3"; "f7f5"] "d1h5") = []
  /\ fst (run 2 (env (inr (prints (bestmove "a7a6"))) "u3") "Qh5#"
            (Some "game") before_mate)
     = Ret (@task_result Mini.rules [human "Qh5#"] "game" "task-u3" "a6"
              "file:///tmp/game-task-u3.png" (Mini.mate ++ ["a7a6"]))
  /\ status_state
       (res_status
          (@task_result Mini.rules [human "Qh5#"] "game" "task-u3" "a6"
             "file:///tmp/game-task-u3.png" (Mini.mate ++ ["a7a6"])))
     = "input-required".
Proof. repeat split; vm_compute; reflexivity. Qed.

(** C7 at work: 1. e4 with an image conversion that raises. *)
Lemma process_messages_image_failure_witness :
  exists r s1,
    process_messages 2 (env_no_image (inr (prints (bestmove "g7g5"))) "u1")
      [human "e4"] (Some "game") None new_agent = (Ret r, s1)
    /\ res_status r = res_status (e4_g5_result "game" "u1")
    /\ res_artifacts r
       = [ {| art_name := "move"; art_parts := [text_part "g5"] |};
           {| art_name := "board"; art_parts := [file_part EmptyString] |} ]
    /\ stored_position s1 "game" = Some ["e2e4"; "g7g5"].
Proof.
  destruct (process_messages_image_failure (RE := Mini.rules) 2
              (env_no_image (inr (prints (bestmove "g7g5"))) "u1")
              (env (inr (prints (bestmove "g7g5"))) "u1")
              [human "e4"] (Some "game") None new_agent
              (e4_g5_result "game" "u1") after_e4_g5 (wf_init _))
    as (_ & r & s1 & move_artifact & board_artifact' & E & _ & _ & Hst & _
        & Hart' & Hart & Hs).
  - by repeat split.
  - exact first_turn.
  - intros b' _. exact I.
  - exists r, s1. split; [exact E|]. split; [exact Hst|].
    split; [|by rewrite Hs, first_turn_stored].
    rewrite Hart. by injection Hart' as <- _.
Defined.

(** C9 at work: the history of the first turn. *)
Lemma process_messages_history_witness :
  res_history (e4_g5_result "game" "u1")
  = [human "e4"; status_message (res_status (e4_g5_result "game" "u1"))]
  /\ msg_role (status_message (res_status (e4_g5_result "game" "u1")))
     = "agent".
Proof.
  exact (process_messages_history 2
           (env (inr (prints (bestmove "g7g5"))) "u1") [human "e4"]
           (Some "game") None new_agent _ _ first_turn).
Defined.

(** * The further properties on concrete turns *)

(** The agent after a second game, ["other"], was opened with 1. d4 beside
    the game ["game"], with no engine at hand. *)
Definition two_games : @agent Mini.rules :=
  snd (process_messages 0 (env missing "u9") [human "d4"] (Some "other") None
         after_e4_g5).

(** What an engine prints that answers the handshake and nothing else. *)
Definition handshake : string := "uciok" +:+ nl +:+ "readyok" +:+ nl.

(** The turn 1. e4 of the game ["game"], left waiting on a hung engine. *)
Definition waiting : @agent Mini.rules :=
  snd (process_messages 3 (env (inr hung) "u1") [human "e4"] (Some "game") None
         new_agent).

Lemma wf_two_games : wf two_games.
Proof. apply wf_process_messages, wf_after_e4_g5. Qed.

Lemma two_games_engine_path : engine_path after_e4_g5 = engine_path two_games.
Proof. vm_compute. reflexivity. Qed.

Lemma two_games_same_game :
  stored_position after_e4_g5
    (py_or (Some "game") (uuid4_context (env missing "u2")))
  = stored_position two_games
      (py_or (Some "game") (uuid4_context (env missing "u2"))).
Proof. vm_compute. reflexivity. Qed.

Lemma illegal_turn :
  process_messages 0 (env missing "u1") [human "e9e9"] (Some "game") None
    after_e4_g5
  = (Raise (IllegalMove "e9e9"),
     snd (process_messages 0 (env missing "u1") [human "e9e9"] (Some "game")
            None after_e4_g5)).
Proof. vm_compute. reflexivity. Qed.

Lemma illegal_turn_move :
  human_move [human "e9e9"]
    (current_board after_e4_g5
       (py_or (Some "game") (uuid4_context (env missing "u1"))))
  = inl (IllegalMove "e9e9").
Proof. vm_compute. reflexivity. Qed.

Lemma waiting_turn :
  process_messages 3 (env (inr hung) "u1") [human "e4"] (Some "game") None
    new_agent
  = (Pending, waiting).
Proof. vm_compute. reflexivity. Qed.

(** X2 at work: opening the game ["other"] leaves the game ["game"] where
    it was. *)
Lemma process_messages_other_contexts_witness :
  stored_position two_games "game" = Some ["e2e4"; "g7g5"].
Proof.
  unfold two_games.
  rewrite (process_messages_other_contexts 0 (env missing "u9") [human "d4"]
             (Some "other") None after_e4_g5 "game" wf_after_e4_g5).
  - exact first_turn_stored.
  - discriminate.
Defined.

(** X3 at work: 2. Nc3 in the game ["game"] gives the same result whether
    or not the game ["other"] is stored beside it. *)
Lemma process_messages_isolated_witness :
  fst (process_messages 0 (env missing "u2") [human "Nc3"] (Some "game") None
         after_e4_g5)
  = fst (process_messages 0 (env missing "u2") [human "Nc3"] (Some "game") None
           two_games).
Proof.
  exact (proj1 (process_messages_isolated 0 (env missing "u2") [human "Nc3"]
                  (Some "game") None after_e4_g5 two_games wf_after_e4_g5
                  wf_two_games two_games_engine_path two_games_same_game)).
Defined.

(** X5 at work: with no engine, Black's first listed move after 1. e4. *)
Lemma stockfish_not_started_witness :
  fst (_get_stockfish_move 0 (env missing "u1") 0 after_e4)
  = Ret (Some "g8h6")
  /\ effects (snd (_get_stockfish_move 0 (env missing "u1") 0 after_e4)) = [].
Proof.
  destruct (stockfish_not_started_falls_back 0 (env missing "u1") 0 after_e4
              (Exn FileNotFoundError "No such file or directory") eq_refl)
    as (Hmove & _ & _ & Heff).
  split; [exact Hmove|exact Heff].
Defined.

(** X6 at work: an engine that prints the byte 255. *)
Lemma stockfish_undecodable_output_witness :
  fst (_get_stockfish_move 2
         (env (inr (prints (String (ascii_of_nat 255) EmptyString))) "u1")
         0 after_e4)
  = Ret (Some "g8h6").
Proof.
  apply (stockfish_undecodable_output_falls_back 2
           (env (inr (prints (String (ascii_of_nat 255) EmptyString))) "u1")
           0 after_e4
           (prints (String (ascii_of_nat 255) EmptyString))
           (String (ascii_of_nat 255) EmptyString) EmptyString).
  - reflexivity.
  - vm_compute. reflexivity.
  - vm_compute. reflexivity.
Defined.

(** X7 at work: an engine that answers [bestmove (none)]. *)
Lemma stockfish_unusable_bestmove_witness :
  fst (_get_stockfish_move 2 (env (inr (prints (bestmove "(none)"))) "u1")
         0 after_e4)
  = Ret (Some "g8h6").
Proof.
  apply (stockfish_unusable_bestmove_falls_back 2
           (env (inr (prints (bestmove "(none)"))) "u1") 0 after_e4
           (prints (bestmove "(none)")) (bestmove "(none)") EmptyString
           (bestmove "(none)") ["uciok"; "readyok"] "bestmove (none)"
           [EmptyString]).
  - reflexivity.
  - vm_compute. reflexivity.
  - vm_compute. reflexivity.
  - vm_compute. reflexivity.
  - repeat constructor.
  - reflexivity.
  - right. exists "(none)". split; reflexivity.
Defined.

(** X8 at work: of two [bestmove] lines the first is taken. *)
Lemma stockfish_first_bestmove_witness :
  fst (_get_stockfish_move 2
         (env (inr (prints (bestmove "g7g5" +:+ "bestmove e7e5" +:+ nl))) "u1")
         0 after_e4)
  = Ret (Some "g7g5").
Proof.
  apply (stockfish_first_bestmove_decides 2
           (env (inr (prints (bestmove "g7g5" +:+ "bestmove e7e5" +:+ nl)))
              "u1")
           0 after_e4
           (prints (bestmove "g7g5" +:+ "bestmove e7e5" +:+ nl))
           (bestmove "g7g5" +:+ "bestmove e7e5" +:+ nl) EmptyString
           (bestmove "g7g5" +:+ "bestmove e7e5" +:+ nl)
           ["uciok"; "readyok"] "bestmove g7g5"
           ["bestmove e7e5"; EmptyString] "g7g5" "g7g5").
  - reflexivity.
  - vm_compute. reflexivity.
  - vm_compute. reflexivity.
  - vm_compute. reflexivity.
  - repeat constructor.
  - reflexivity.
  - reflexivity.
  - reflexivity.
Defined.

(** X10 at work: ["e9e9"] in the game after 1. e4 g5 raises with nothing
    done to the outside. *)
Lemma process_messages_raises_witness :
  effects
    (snd (process_messages 0 (env missing "u1") [human "e9e9"] (Some "game")
            None after_e4_g5))
  = effects after_e4_g5.
Proof.
  destruct (process_messages_raises 0 (env missing "u1") [human "e9e9"]
              (Some "game") None after_e4_g5 (IllegalMove "e9e9") _
              wf_after_e4_g5 illegal_turn)
    as [(_ & _ & Heff & _)|(move & m & Hm & _)].
  - exact Heff.
  - rewrite illegal_turn_move in Hm. discriminate.
Defined.

(** X11 at work: 1. e4 is stored while the engine hangs. *)
Lemma process_messages_pending_witness :
  stored_position waiting "game" = Some ["e2e4"]
  /\ length (effects waiting) = 3.
Proof.
  destruct (process_messages_pending 3 (env (inr hung) "u1") [human "e4"]
              (Some "game") None new_agent waiting (wf_init _) waiting_turn)
    as (move & Hm & _ & Hs & Heff).
  injection Hm as <-. split; [exact Hs|]. by rewrite Heff.
Defined.

(** X12 at work: 1. e4 against an engine that names no move. *)
Lemma process_messages_no_counter_move_witness :
  exists s',
    process_messages 2 (env (inr (prints handshake)) "u1") [human "e4"]
      (Some "game") None new_agent
    = (Ret (@task_result Mini.rules [human "e4"] "game" "task-u1"
              "No legal moves available" "file:///tmp/game-task-u1.png"
              ["e2e4"]), s')
    /\ stored_position s' "game" = Some ["e2e4"].
Proof.
  apply (process_messages_no_counter_move (RE := Mini.rules) 2
           (env (inr (prints handshake)) "u1") [human "e4"] (Some "game") None
           new_agent "e2e4" None (wf_init _)).
  - reflexivity.
  - vm_compute. reflexivity.
  - discriminate.
Defined.

(** X13 at work: 1. e4 g5. *)
Lemma process_messages_counter_move_witness :
  exists s',
    process_messages 2 (env (inr (prints (bestmove "g7g5"))) "u1")
      [human "e4"] (Some "game") None new_agent
    = (Ret (e4_g5_result "game" "u1"), s')
    /\ stored_position s' "game" = Some ["e2e4"; "g7g5"].
Proof.
  apply (process_messages_counter_move (RE := Mini.rules) 2
           (env (inr (prints (bestmove "g7g5"))) "u1") [human "e4"]
           (Some "game") None new_agent "e2e4" "g7g5" "g5" (wf_init _)).
  - reflexivity.
  - vm_compute. reflexivity.
  - reflexivity.
  - reflexivity.
Defined.

(** X14 at work: 2. Nc3 after the two messages of the first turn. *)
Lemma process_messages_plays_latest_message_witness :
  snd (process_messages 0 (env missing "u2")
         ([human "e4"; status_message (res_status (e4_g5_result "game" "u1"))]
          ++ [human "Nc3"])
         (Some "game") None after_e4_g5)
  = snd (process_messages 0 (env missing "u2") [human "Nc3"] (Some "game")
           None after_e4_g5).
Proof.
  exact (proj1 (process_messages_plays_latest_message 0 (env missing "u2")
                  [human "e4";
                   status_message (res_status (e4_g5_result "game" "u1"))]
                  (human "Nc3") (Some "game") None after_e4_g5
                  wf_after_e4_g5)).
Defined.

(** X15 at work: the game ["game"] is still stored beside ["other"]. *)
Lemma process_messages_keeps_contexts_witness :
  dom (boards after_e4_g5) ⊆ dom (boards two_games)
  /\ is_Some (stored_position two_games "game").
Proof.
  destruct (process_messages_keeps_contexts 0 (env missing "u9") [human "d4"]
              (Some "other") None after_e4_g5 wf_after_e4_g5)
    as (Hsub & _ & Hkeep).
  split; [exact Hsub|]. apply Hkeep. rewrite first_turn_stored. by eexists.
Defined.

(** X16 at work: the ids of the first turn. *)
Lemma process_messages_ids_witness :
  res_contextId (e4_g5_result "game" "u1") = "game"
  /\ res_id (e4_g5_result "game" "u1") = "task-u1".
Proof.
  destruct (process_messages_ids 2 (env (inr (prints (bestmove "g7g5"))) "u1")
              [human "e4"] (Some "game") None new_agent _ _ first_turn)
    as (Hctx & _ & _ & Htask & _).
  split.
  - apply Hctx; [reflexivity|discriminate].
  - apply Htask. by left.
Defined.

(** X17 at work: the shape of the first turn's result. *)
Lemma process_messages_result_shape_witness :
  exists ai_move_san board_url annotation,
    res_artifacts (e4_g5_result "game" "u1")
    = [ {| art_name := "move"; art_parts := [text_part ai_move_san] |};
        {| art_name := "board"; art_parts := [file_part board_url] |} ]
    /\ msg_parts (status_message (res_status (e4_g5_result "game" "u1")))
       = [text_part ("I played " +:+ ai_move_san +:+ annotation)]
    /\ (annotation = EmptyString \/ annotation = " - Check!"
        \/ annotation = " - Checkmate!")
    /\ (status_state (res_status (e4_g5_result "game" "u1")) = "input-required"
        \/ status_state (res_status (e4_g5_result "game" "u1")) = "completed").
Proof.
  exact (process_messages_result_shape 2
           (env (inr (prints (bestmove "g7g5"))) "u1") [human "e4"]
           (Some "game") None new_agent _ _ first_turn).
Defined.

(** X18 at work: the first turn started the engine once and wrote one
    file. *)
Lemma process_messages_effects_witness :
  exists move b',
    human_move [human "e4"]
      (current_board new_agent
         (py_or (Some "game")
            (uuid4_context (env (inr (prints (bestmove "g7g5"))) "u1"))))
    = inr move
    /\ stored_position after_e4_g5 "game" = Some b'
    /\ effects after_e4_g5
       = [] ++
         engine_effects (env (inr (prints (bestmove "g7g5"))) "u1")
           "/usr/games/stockfish" (push [] move) ++
         image_effects (env (inr (prints (bestmove "g7g5"))) "u1")
           (svg_board b') "game" "task-u1".
Proof.
  exact (process_messages_effects 2
           (env (inr (prints (bestmove "g7g5"))) "u1") [human "e4"]
           (Some "game") None new_agent _ _ (wf_init _) first_turn).
Defined.

(** X19 at work: the commands for the opening position. *)
Lemma commands_are_four_lines_witness :
  split_lines (join (commands (RE := Mini.rules) []))
  = [ "uci"; "isready";
      "position fen rnbqkbnr/pppppppp/8/8/8/8/PPPPPPPP/RNBQKBNR w KQkq - 0 1";
      "go movetime 1000"; EmptyString ].
Proof.
  exact (commands_are_four_lines (RE := Mini.rules) [] eq_refl).
Defined.
